(** * License handlers of the LCP server: model and properties

    Shallow embedding of [pkg/api/licenseinfo_handler.go].  The handlers
    talk to three collaborators whose code lives outside that file: the
    license repository ([h.Store.License()]), the payload validator
    ([stor.LicenseInfo.Validate]) and the calendar ([time.Time.AddDate]).
    They are interfaces here; an in-memory instance is given further down
    so that every handler can be run on concrete requests. *)

From Stdlib Require Import ZArith List String Ascii Bool Lia.
From stdpp Require Import gmap strings.
Import ListNotations.
Local Open Scope string_scope.
Local Open Scope Z_scope.

(** ** Pieces of the Go standard library used by the handlers *)

Module Go.

(** The two ways [strconv] numbers fail to parse. *)
Inductive NumErrKind := ErrSyntax | ErrRange.

(** Go [error] values, kept structured rather than rendered to text. *)
Inductive error :=
| NumError (func num : string) (kind : NumErrKind)  (* *strconv.NumError *)
| Errorf (msg : string)                             (* fmt.Errorf, errors.New *)
| Foreign (msg : string).                           (* raised by a collaborator *)

(** A Go [(value, error)] return where the value is only read when the
    error is nil. *)
Inductive result (A : Type) :=
| Ok (a : A)
| Err (e : error).
Arguments Ok {A} a.
Arguments Err {A} e.

(** [strings.Split(s, sep)] for a one-byte separator: the fields between
    the occurrences of [sep]; always [1 + count sep s] fields. *)
Fixpoint strings_Split (s : string) (sep : ascii) : list string :=
  match s with
  | EmptyString => [EmptyString]
  | String c rest =>
      if Ascii.eqb c sep then EmptyString :: strings_Split rest sep
      else match strings_Split rest sep with
           | [] => [String c EmptyString]
           | f :: fs => String c f :: fs
           end
  end.

(** Value of a decimal digit byte, as [ch -= '0'; ch > 9] tests it. *)
Definition digit_val (c : ascii) : option Z :=
  let n := Z.of_N (N_of_ascii c) in
  if (48 <=? n) && (n <=? 57) then Some (n - 48) else None.

Definition maxUint64 : Z := 2 ^ 64 - 1.
Definition intCutoff : Z := 2 ^ 63.

(** [strconv.ParseUint(s, 10, 64)] on a non-empty digit string, scanning
    left to right: the first offending byte decides between a syntax and
    a range error. *)
Fixpoint parse_digits (s : string) (n : Z) : Z * option NumErrKind :=
  match s with
  | EmptyString => (n, None)
  | String c rest =>
      match digit_val c with
      | None => (0, Some ErrSyntax)
      | Some d =>
          if maxUint64 <? n * 10 + d then (maxUint64, Some ErrRange)
          else parse_digits rest (n * 10 + d)
      end
  end.

(** [strconv.Atoi] with a 64-bit [int]: an optional sign followed by one or
    more decimal digits.  On a syntax error the value is 0; on a range
    error it is the nearest bound. *)
Definition strconv_Atoi (s : string) : Z * option error :=
  let fail k := Some (NumError "Atoi" s k) in
  let '(neg, digits) :=
    match s with
    | String "-" rest => (true, rest)
    | String "+" rest => (false, rest)
    | _ => (false, s)
    end in
  match digits with
  | EmptyString => (0, fail ErrSyntax)
  | _ =>
      match parse_digits digits 0 with
      | (_, Some ErrSyntax) => (0, fail ErrSyntax)
      | (un, range) =>
          if negb neg && (intCutoff <=? un) then (intCutoff - 1, fail ErrRange)
          else if neg && (intCutoff <? un) then (- intCutoff, fail ErrRange)
          else match range with
               | Some k => ((if neg then - un else un), fail k)
               | None => ((if neg then - un else un), None)
               end
      end
  end.

End Go.
Export Go.

(** ** The [stor] package as the handlers see it *)

Module stor.

(** An instant, counted in seconds. *)
Definition Time := Z.

(** Modelled from the spec: the declaration of [stor.LicenseInfo] is not in
    the handler file.  The fields are the ones the handlers read or write
    ([ID], [CreatedAt], [UpdatedAt], [Status], [End], [MaxEnd]) together
    with the remaining ones of the record of section 3 of the
    specification; [nil] pointers are [None]. *)
Record LicenseInfo := MkLicenseInfo {
  ID : string;
  CreatedAt : Time;
  UpdatedAt : Time;
  PublicationID : string;
  UserID : string;
  Status : string;
  Start : option Time;
  End : option Time;
  MaxEnd : option Time;
  DeviceMax : Z;
  DeviceCount : Z
}.

(** Modelled from the spec: the status constants of [stor] are not in the
    handler file; their values are the state names of section 4.1. *)
Definition STATUS_READY : string := "ready".
Definition STATUS_ACTIVE : string := "active".
Definition STATUS_EXPIRED : string := "expired".
Definition STATUS_RETURNED : string := "returned".
Definition STATUS_REVOKED : string := "revoked".
Definition STATUS_CANCELLED : string := "cancelled".

(** Field assignments through the [*stor.LicenseInfo] pointer. *)
Definition set_Status (v : string) (l : LicenseInfo) : LicenseInfo :=
  MkLicenseInfo (ID l) (CreatedAt l) (UpdatedAt l) (PublicationID l) (UserID l)
    v (Start l) (End l) (MaxEnd l) (DeviceMax l) (DeviceCount l).

Definition set_MaxEnd (v : option Time) (l : LicenseInfo) : LicenseInfo :=
  MkLicenseInfo (ID l) (CreatedAt l) (UpdatedAt l) (PublicationID l) (UserID l)
    (Status l) (Start l) (End l) v (DeviceMax l) (DeviceCount l).

Definition set_ID (v : string) (l : LicenseInfo) : LicenseInfo :=
  MkLicenseInfo v (CreatedAt l) (UpdatedAt l) (PublicationID l) (UserID l)
    (Status l) (Start l) (End l) (MaxEnd l) (DeviceMax l) (DeviceCount l).

Definition set_CreatedAt (v : Time) (l : LicenseInfo) : LicenseInfo :=
  MkLicenseInfo (ID l) v (UpdatedAt l) (PublicationID l) (UserID l)
    (Status l) (Start l) (End l) (MaxEnd l) (DeviceMax l) (DeviceCount l).

(** The license repository behind [h.Store.License()].  Every method may
    change the repository state [S].  [Create], [Update] and [Delete]
    receive a pointer: they hand back the record as they leave it behind
    that pointer, next to their error. *)
Class LicenseRepository (S : Type) := {
  ListAll : S -> result (list LicenseInfo) * S;
  FindByUser : string -> S -> result (list LicenseInfo) * S;
  FindByPublication : string -> S -> result (list LicenseInfo) * S;
  FindByStatus : string -> S -> result (list LicenseInfo) * S;
  FindByDeviceCount : Z -> Z -> S -> result (list LicenseInfo) * S;
  Create : LicenseInfo -> S -> (LicenseInfo * option error) * S;
  Get : string -> S -> result LicenseInfo * S;
  Update : LicenseInfo -> S -> (LicenseInfo * option error) * S;
  Delete : LicenseInfo -> S -> (LicenseInfo * option error) * S
}.

(** What the handlers need from [time] and from the validator of [stor]. *)
Class Platform := {
  AddDate : Time -> Z -> Z -> Z -> Time;      (* t.AddDate(years, months, days) *)
  Validate : LicenseInfo -> option error      (* l.Validate() *)
}.

End stor.
Export stor.

(** ** The handlers of [pkg/api] *)

Module api.

(** An incoming request, reduced to what the handlers read from it. *)
Record Request := MkRequest {
  query : string -> string;       (* r.URL.Query().Get(name); absent is empty *)
  urlParam : string -> string;    (* chi.URLParam(r, name); absent is empty *)
  body : result LicenseInfo       (* the JSON body once decoded by render.Bind *)
}.

(** [h.Config], of which only [Status.RenewMaxDays] is read. *)
Record Config := MkConfig { RenewMaxDays : Z }.

(** A call made on the license repository, with its arguments. *)
Inductive StoreCall :=
| CallListAll
| CallFindByUser (userID : string)
| CallFindByPublication (pubID : string)
| CallFindByStatus (status : string)
| CallFindByDeviceCount (min max : Z)
| CallCreate (l : LicenseInfo)
| CallGet (licenseID : string)
| CallUpdate (l : LicenseInfo)
| CallDelete (l : LicenseInfo).

(** What [render.Render] and [render.RenderList] put on the wire. *)
Inductive Response :=
| ErrInvalidRequest (e : error)
| ErrNotFound
| ErrRender (e : error)
| LicenseInfoResponse (httpStatus : Z) (l : LicenseInfo)
| LicenseInfoListResponse (httpStatus : Z) (ls : list LicenseInfo).

Definition StatusOK : Z := 200.
Definition StatusCreated : Z := 201.

(** The state one handler invocation threads: the repository, the calls
    made on it so far, the responses written so far (oldest first) and
    the status set by [render.Status]. *)
Record Exchange (S : Type) := MkExchange {
  db : S;
  calls : list StoreCall;
  written : list Response;
  httpStatus : Z
}.
Arguments MkExchange {S}.
Arguments db {S}.
Arguments calls {S}.
Arguments written {S}.
Arguments httpStatus {S}.

Definition Handler (S A : Type) : Type := Exchange S -> A * Exchange S.

Definition ret {S A} (a : A) : Handler S A := fun x => (a, x).

Definition bind {S A B} (m : Handler S A) (k : A -> Handler S B) : Handler S B :=
  fun x => let '(a, x') := m x in k a x'.

Declare Scope handler_scope.
Delimit Scope handler_scope with handler.
Notation "v <- m ;; k" := (bind m (fun v => k))
  (at level 100, m at next level, right associativity) : handler_scope.
Notation "m ;; k" := (bind m (fun _ => k))
  (at level 100, right associativity) : handler_scope.
Local Open Scope handler_scope.

(** The handler is done: Go's bare [return]. *)
Definition finished {S} : Handler S unit := ret tt.

(** Run a handler on a fresh exchange over repository state [s]. *)
Definition serve {S} (h : Handler S unit) (s : S) : Exchange S :=
  snd (h (MkExchange s [] [] StatusOK)).

Section Handlers.
Context {S : Type} `{LicenseRepository S} `{Platform}.

(** One repository call: log it, run it, keep the new repository state. *)
Definition invoke {A} (c : StoreCall) (op : S -> A * S) : Handler S A :=
  fun x => let '(a, s') := op (db x) in
           (a, MkExchange s' (calls x ++ [c]) (written x) (httpStatus x)).

Definition render_Status (code : Z) : Handler S unit :=
  fun x => (tt, MkExchange (db x) (calls x) (written x) code).

Definition respond (v : Response) : Handler S unit :=
  fun x => (tt, MkExchange (db x) (calls x) (written x ++ [v]) (httpStatus x)).

(** [render.Render(w, r, ErrX)]; its result is never looked at. *)
Definition render_Error (v : Response) : Handler S unit := respond v.

(** [LicenseInfoResponse.Render]: nothing to do before marshalling. *)
Definition LicenseInfoResponse_Render (l : LicenseInfo) : option error := None.

Definition NewLicenseInfoResponse (l : LicenseInfo) : LicenseInfo := l.

Definition NewLicenseInfoListResponse (licenses : list LicenseInfo)
  : list LicenseInfo :=
  map NewLicenseInfoResponse licenses.

(** [render.Render(w, r, NewLicenseInfoResponse(l))]: the payload's own
    [Render] first, the response only when it raised nothing. *)
Definition render_Render (l : LicenseInfo) : Handler S (option error) :=
  match LicenseInfoResponse_Render l with
  | Some e => ret (Some e)
  | None => fun x => (None, MkExchange (db x) (calls x)
                              (written x ++ [LicenseInfoResponse (httpStatus x) l])
                              (httpStatus x))
  end.

(** [render.RenderList]: every element's [Render], then one response. *)
Definition render_RenderList (ls : list LicenseInfo) : Handler S (option error) :=
  match
    fold_left (fun acc l => match acc with
                            | Some e => Some e
                            | None => LicenseInfoResponse_Render l
                            end) ls None
  with
  | Some e => ret (Some e)
  | None => fun x => (None, MkExchange (db x) (calls x)
                              (written x ++ [LicenseInfoListResponse (httpStatus x) ls])
                              (httpStatus x))
  end.

(** [LicenseInfoRequest.Bind]. *)
Definition LicenseInfoRequest_Bind (l : LicenseInfo) : option error := Validate l.

(** [render.Bind(r, data)]: decode the body, then the payload's [Bind]. *)
Definition render_Bind (r : Request) : result LicenseInfo :=
  match body r with
  | Err e => Err e
  | Ok l => match LicenseInfoRequest_Bind l with
            | Some e => Err e
            | None => Ok l
            end
  end.

Definition nonEmpty (s : string) : bool := negb (String.eqb s "").

(** The tail shared by the branches of [SearchLicenses] that queried the
    repository (source lines 66 to 73). *)
Definition renderFound (found : result (list LicenseInfo)) : Handler S unit :=
  match found with
  | Err err => render_Error (ErrRender err)
  | Ok licenses =>
      rerr <- render_RenderList (NewLicenseInfoListResponse licenses) ;;
      match rerr with
      | Some err => render_Error (ErrRender err)
      | None => finished
      end
  end.

Definition ListLicenses (r : Request) : Handler S unit :=
  found <- invoke CallListAll ListAll ;;
  renderFound found.

Definition SearchLicenses (r : Request) : Handler S unit :=
  let userID := query r "user" in
  if nonEmpty userID then
    found <- invoke (CallFindByUser userID) (FindByUser userID) ;;
    renderFound found
  else
  let pubID := query r "pub" in
  if nonEmpty pubID then
    found <- invoke (CallFindByPublication pubID) (FindByPublication pubID) ;;
    renderFound found
  else
  let status := query r "status" in
  if nonEmpty status then
    found <- invoke (CallFindByStatus status) (FindByStatus status) ;;
    renderFound found
  else
  let count := query r "count" in
  if nonEmpty count then
    let parts := strings_Split count ":" in
    if negb (Nat.eqb (length parts) 2) then
      render_Error (ErrInvalidRequest (Errorf ("invalid count parameter: " +:+ count)))
    else
      let '(min, err) := strconv_Atoi (nth 0 parts "") in
      match err with
      | Some e => render_Error (ErrInvalidRequest e)
      | None => ret tt
      end ;;
      let '(max, err) := strconv_Atoi (nth 1 parts "") in
      match err with
      | Some e => render_Error (ErrInvalidRequest e)
      | None => ret tt
      end ;;
      found <- invoke (CallFindByDeviceCount min max) (FindByDeviceCount min max) ;;
      renderFound found
  else
    render_Error ErrNotFound.

Context (Cfg : Config).

Definition CreateLicense (r : Request) : Handler S unit :=
  match render_Bind r with
  | Err err => render_Error (ErrInvalidRequest err)
  | Ok license =>
      (* force the status *)
      let license :=
        if negb (String.eqb (Status license) STATUS_READY)
        then set_Status STATUS_READY license else license in
      (* default the max end date *)
      let license :=
        match End license, MaxEnd license with
        | Some e, None =>
            let maxEnd := AddDate e 0 0 (RenewMaxDays Cfg) in
            set_MaxEnd (Some maxEnd) license
        | _, _ => license
        end in
      (* db create *)
      res <- invoke (CallCreate license) (Create license) ;;
      let '(license, err) := res in
      match err with
      | Some err => render_Error (ErrRender err)
      | None =>
          render_Status StatusCreated ;;
          rerr <- render_Render (NewLicenseInfoResponse license) ;;
          match rerr with
          | Some err => render_Error (ErrRender err)
          | None => finished
          end
      end
  end.

Definition GetLicense (r : Request) : Handler S unit :=
  let licenseID := urlParam r "licenseID" in
  if nonEmpty licenseID then
    got <- invoke (CallGet licenseID) (Get licenseID) ;;
    match got with
    | Err _ => render_Error ErrNotFound
    | Ok license =>
        rerr <- render_Render (NewLicenseInfoResponse license) ;;
        match rerr with
        | Some err => render_Error (ErrRender err)
        | None => finished
        end
    end
  else
    render_Error (ErrInvalidRequest (Errorf "missing required license identifier")).

Definition UpdateLicense (r : Request) : Handler S unit :=
  match render_Bind r with
  | Err err => render_Error (ErrInvalidRequest err)
  | Ok license =>
      (* get the existing license *)
      let licenseID := urlParam r "licenseID" in
      if nonEmpty licenseID then
        got <- invoke (CallGet licenseID) (Get licenseID) ;;
        match got with
        | Err _ => render_Error ErrNotFound
        | Ok currentLic =>
            (* set the gorm fields *)
            let license := set_ID (ID currentLic) license in
            let license := set_CreatedAt (CreatedAt currentLic) license in
            (* db update *)
            res <- invoke (CallUpdate license) (Update license) ;;
            let '(license, err) := res in
            match err with
            | Some err => render_Error (ErrRender err)
            | None =>
                rerr <- render_Render (NewLicenseInfoResponse license) ;;
                match rerr with
                | Some err => render_Error (ErrRender err)
                | None => finished
                end
            end
        end
      else
        render_Error ErrNotFound
  end.

Definition DeleteLicense (r : Request) : Handler S unit :=
  (* get the existing license *)
  let licenseID := urlParam r "licenseID" in
  if nonEmpty licenseID then
    got <- invoke (CallGet licenseID) (Get licenseID) ;;
    match got with
    | Err _ => render_Error ErrNotFound
    | Ok license =>
        (* db delete *)
        res <- invoke (CallDelete license) (Delete license) ;;
        let '(license, err) := res in
        match err with
        | Some err => render_Error (ErrInvalidRequest err)
        | None =>
            rerr <- render_Render (NewLicenseInfoResponse license) ;;
            match rerr with
            | Some err => render_Error (ErrRender err)
            | None => finished
            end
        end
    end
  else
    render_Error ErrNotFound.

End Handlers.

(** What [renderFound] writes for a repository answer when the status is
    still the default one. *)
Definition foundResponse (found : result (list LicenseInfo)) : Response :=
  match found with
  | Err err => ErrRender err
  | Ok licenses => LicenseInfoListResponse StatusOK licenses
  end.

(** A repository method taking a pointer leaves the [Status] behind that
    pointer as it found it. *)
Definition keepsStatus {S : Type}
    (op : LicenseInfo -> S -> (LicenseInfo * option error) * S) : Prop :=
  forall l s, Status (fst (fst (op l s))) = Status l.

End api.
Export api.

(** ** The lifecycle engine of the specification *)

Module engine.

Definition set_End (v : option Time) (l : LicenseInfo) : LicenseInfo :=
  MkLicenseInfo (ID l) (CreatedAt l) (UpdatedAt l) (PublicationID l) (UserID l)
    (Status l) (Start l) v (MaxEnd l) (DeviceMax l) (DeviceCount l).

Definition set_UpdatedAt (v : Time) (l : LicenseInfo) : LicenseInfo :=
  MkLicenseInfo (ID l) (CreatedAt l) v (PublicationID l) (UserID l)
    (Status l) (Start l) (End l) (MaxEnd l) (DeviceMax l) (DeviceCount l).

Definition set_DeviceCount (v : Z) (l : LicenseInfo) : LicenseInfo :=
  MkLicenseInfo (ID l) (CreatedAt l) (UpdatedAt l) (PublicationID l) (UserID l)
    (Status l) (Start l) (End l) (MaxEnd l) (DeviceMax l) v.

(** The statuses that are set explicitly and never recomputed. *)
Definition isTerminal (status : string) : bool :=
  String.eqb status STATUS_RETURNED
  || String.eqb status STATUS_REVOKED
  || String.eqb status STATUS_CANCELLED.

(** Modelled from the spec: the Status Engine has no code in the handler
    files.  This is the transition list of section 4.1, in its order:
    terminal statuses are returned unchanged; else [expired] when [end] is
    set and [now > end]; else [active] when [deviceCount >= 1]; else
    [ready]. *)
Definition currentStatus (record : LicenseInfo) (now : Time) : string :=
  if isTerminal (Status record) then Status record
  else
    match End record with
    | Some e =>
        if e <? now then STATUS_EXPIRED
        else if 1 <=? DeviceCount record then STATUS_ACTIVE
        else STATUS_READY
    | None =>
        if 1 <=? DeviceCount record then STATUS_ACTIVE else STATUS_READY
    end.

(** The error kinds of section 7 that a renewal can raise. *)
Inductive RenewError := InvalidState | RenewalTooLate | RenewalInPast.

(** Modelled from the spec: the Renewal Policy has no code in the handler
    files.  This is the contract of section 4.2, its bullets in their
    order.  An omitted [requestedEnd] is replaced by the computed default
    [max(record.end, now) + maxRenewDays] days, and the bullets that
    follow read [requestedEnd] as that end.  On success the updated
    record is returned; the new end is its [End] field. *)
Definition renew `{Platform} (record : LicenseInfo) (requestedEnd : option Time)
    (now : Time) (maxRenewDays : Z) : LicenseInfo + RenewError :=
  let derived := currentStatus record now in
  if negb (String.eqb derived STATUS_ACTIVE || String.eqb derived STATUS_READY)
  then inr InvalidState
  else
    let newEnd :=
      match requestedEnd with
      | Some e => e
      | None =>
          let from := match End record with
                      | Some e => Z.max e now
                      | None => now
                      end in
          AddDate from 0 0 maxRenewDays
      end in
    let tooLate := match MaxEnd record with
                   | Some m => m <? newEnd
                   | None => false
                   end in
    if tooLate then inr RenewalTooLate
    else
      let shrinks := match End record with
                     | Some e => newEnd <? e
                     | None => false
                     end in
      if (newEnd <=? now) || shrinks then inr RenewalInPast
      else
        let record := set_End (Some newEnd) record in
        let record := match MaxEnd record with
                      | None => set_MaxEnd (Some newEnd) record
                      | Some _ => record
                      end in
        inl (set_UpdatedAt now record).

End engine.
Export engine.

(** ** An in-memory repository and platform

    Used to run the handlers on concrete requests. *)

Module memstore.

(** Licenses by identifier. *)
Definition MemStore := gmap string LicenseInfo.

Definition rows (s : gmap string LicenseInfo) : list LicenseInfo :=
  map snd (map_to_list s).

Definition select (p : LicenseInfo -> bool) (s : gmap string LicenseInfo)
  : result (list LicenseInfo) * gmap string LicenseInfo :=
  (Ok (List.filter p (rows s)), s).

#[export] Instance memRepository : LicenseRepository (gmap string LicenseInfo) := {
  ListAll := select (fun _ => true);
  FindByUser u := select (fun l => String.eqb (UserID l) u);
  FindByPublication p := select (fun l => String.eqb (PublicationID l) p);
  FindByStatus st := select (fun l => String.eqb (Status l) st);
  FindByDeviceCount lo hi :=
    select (fun l => (lo <=? DeviceCount l) && (DeviceCount l <=? hi));
  Create l s :=
    match s !! ID l with
    | Some _ => ((l, Some (Foreign "duplicate license")), s)
    | None => ((l, None), <[ID l := l]> s)
    end;
  Get id s :=
    match s !! id with
    | Some l => (Ok l, s)
    | None => (Err (Foreign "record not found"), s)
    end;
  Update l s := ((l, None), <[ID l := l]> s);
  Delete l s := ((l, None), delete (ID l) s)
}.

(** Days of 86400 seconds, months of 30 days and years of 365; a payload
    is valid when it names its publication and its user. *)
#[export] Instance memPlatform : Platform := {
  AddDate t years months days := t + 86400 * (days + 30 * months + 365 * years);
  Validate l :=
    if nonEmpty (PublicationID l) && nonEmpty (UserID l) then None
    else Some (Foreign "validation failed")
}.

Definition memConfig : Config := MkConfig 7.

(** A stored license, ready since instant 5000. *)
Definition lic1 : LicenseInfo :=
  MkLicenseInfo "L1" 5000 5000 "pub-1" "alice" STATUS_READY
    None (Some 90000) (Some 200000) 2 0.

Definition store1 : gmap string LicenseInfo := <["L1" := lic1]> ∅.

(** A request with no query, no URL parameter and an undecodable body. *)
Definition emptyRequest : Request :=
  MkRequest (fun _ => "") (fun _ => "") (Err (Foreign "EOF")).

Definition withQuery (name value : string) (r : Request) : Request :=
  MkRequest (fun n => if String.eqb n name then value else query r n)
    (urlParam r) (body r).

Definition withParam (name value : string) (r : Request) : Request :=
  MkRequest (query r)
    (fun n => if String.eqb n name then value else urlParam r n) (body r).

Definition withBody (l : LicenseInfo) (r : Request) : Request :=
  MkRequest (query r) (urlParam r) (Ok l).

(** Creation of a license for bob, sent with a status and no [MaxEnd]. *)
Definition createPayload : LicenseInfo :=
  MkLicenseInfo "L2" 0 0 "pub-1" "bob" STATUS_REVOKED
    None (Some 100000) None 1 0.

Definition createRequest : Request := withBody createPayload emptyRequest.

(** An update of license [L1] whose payload claims another identity,
    creation instant 1, update instant 2 and status [revoked]. *)
Definition updatePayload : LicenseInfo :=
  MkLicenseInfo "other" 1 2 "pub-1" "alice" STATUS_REVOKED
    None (Some 90000) (Some 200000) 2 0.

Definition updateRequest : Request :=
  withParam "licenseID" "L1" (withBody updatePayload emptyRequest).

(** The same update addressed to a license the store does not hold. *)
Definition missingRequest : Request :=
  withParam "licenseID" "nope" (withBody updatePayload emptyRequest).

(** A license revoked while a device was registered. *)
Definition revokedLic : LicenseInfo :=
  MkLicenseInfo "L3" 5000 6000 "pub-1" "carol" STATUS_REVOKED
    None (Some 90000) (Some 200000) 2 1.

End memstore.
Export memstore.


(** ** The license repository of the specification *)

Module specstore.


End specstore.
Export specstore.

(** ** Counting separators *)

Module gostrings.

(** [strings.Count(s, sep)] for a one-byte separator. *)
Fixpoint strings_Count (s : string) (sep : ascii) : nat :=
  match s with
  | EmptyString => 0%nat
  | String c rest =>
      if Ascii.eqb c sep then Datatypes.S (strings_Count rest sep)
      else strings_Count rest sep
  end.

End gostrings.
Export gostrings.

(** ** Publications: the [stor] side *)

Module pubstor.

(** The declaration of [stor.PublicationInfo] (named [stor.Publication]
    by the later handlers) is not in the handler files.  The record has
    the fields the handlers name; the fields they never name are the
    parameter [R]. *)
Record PublicationInfo (R : Type) := MkPublicationInfo {
  ID : N;
  CreatedAt : Time;
  UpdatedAt : Time;
  DeletedAt : option Time;
  UUID : string;
  Title : string;
  Rest : R
}.
Arguments MkPublicationInfo {R}.
Arguments ID {R}.
Arguments CreatedAt {R}.
Arguments UpdatedAt {R}.
Arguments DeletedAt {R}.
Arguments UUID {R}.
Arguments Title {R}.
Arguments Rest {R}.

(** Field assignments through the publication pointer. *)
Definition set_ID {R} (v : N) (p : PublicationInfo R) : PublicationInfo R :=
  MkPublicationInfo v (CreatedAt p) (UpdatedAt p) (DeletedAt p)
    (UUID p) (Title p) (Rest p).

Definition set_CreatedAt {R} (v : Time) (p : PublicationInfo R) : PublicationInfo R :=
  MkPublicationInfo (ID p) v (UpdatedAt p) (DeletedAt p)
    (UUID p) (Title p) (Rest p).

Definition set_UpdatedAt {R} (v : Time) (p : PublicationInfo R) : PublicationInfo R :=
  MkPublicationInfo (ID p) (CreatedAt p) v (DeletedAt p)
    (UUID p) (Title p) (Rest p).

Definition set_DeletedAt {R} (v : option Time) (p : PublicationInfo R)
  : PublicationInfo R :=
  MkPublicationInfo (ID p) (CreatedAt p) (UpdatedAt p) v
    (UUID p) (Title p) (Rest p).

(** The publication repository behind [h.St.Publication()] and
    [h.Store.Publication()], with the conventions of the license
    repository. *)
Class PublicationRepository (S R : Type) := {
  ListAll : S -> result (list (PublicationInfo R)) * S;
  FindByType : string -> S -> result (list (PublicationInfo R)) * S;
  Create : PublicationInfo R -> S -> (PublicationInfo R * option error) * S;
  Get : string -> S -> result (PublicationInfo R) * S;
  Update : PublicationInfo R -> S -> (PublicationInfo R * option error) * S;
  Delete : PublicationInfo R -> S -> (PublicationInfo R * option error) * S
}.

(** [stor.Publication.Validate], used by the later handlers. *)
Class PublicationValidator (R : Type) := {
  Validate : PublicationInfo R -> option error
}.

End pubstor.

(** ** Publications: the handlers of [pkg/api]

    [publication_handler.go] holds two generations of the same
    handlers, on [HandlerCtx] and on [APIHandler].  [ListPublications],
    [SearchPublications] and [DeletePublication] read the same in both
    and are modelled once. *)

Module pubapi.
Import pubstor.

(** A request whose decoded body has type [B]. *)
Record Request (B : Type) := MkRequest {
  query : string -> string;
  urlParam : string -> string;
  body : result B
}.
Arguments MkRequest {B}.
Arguments query {B}.
Arguments urlParam {B}.
Arguments body {B}.

Inductive StoreCall (R : Type) :=
| CallListAll
| CallFindByType (contentType : string)
| CallCreate (p : PublicationInfo R)
| CallGet (publicationID : string)
| CallUpdate (p : PublicationInfo R)
| CallDelete (p : PublicationInfo R).
Arguments CallListAll {R}.
Arguments CallFindByType {R}.
Arguments CallCreate {R}.
Arguments CallGet {R}.
Arguments CallUpdate {R}.
Arguments CallDelete {R}.

Inductive Response (R : Type) :=
| ErrInvalidRequest (e : error)
| ErrNotFound
| ErrRender (e : error)
| PublicationResponse (httpStatus : Z) (p : PublicationInfo R)
| PublicationListResponse (httpStatus : Z) (ps : list (PublicationInfo R)).
Arguments ErrInvalidRequest {R}.
Arguments ErrNotFound {R}.
Arguments ErrRender {R}.
Arguments PublicationResponse {R}.
Arguments PublicationListResponse {R}.

Record Exchange (S R : Type) := MkExchange {
  db : S;
  calls : list (StoreCall R);
  written : list (Response R);
  httpStatus : Z
}.
Arguments MkExchange {S R}.
Arguments db {S R}.
Arguments calls {S R}.
Arguments written {S R}.
Arguments httpStatus {S R}.

Definition Handler (S R A : Type) : Type := Exchange S R -> A * Exchange S R.

Definition ret {S R A} (a : A) : Handler S R A := fun x => (a, x).

Definition bind {S R A B} (m : Handler S R A) (k : A -> Handler S R B)
  : Handler S R B :=
  fun x => let '(a, x') := m x in k a x'.

Declare Scope pubhandler_scope.
Delimit Scope pubhandler_scope with pubhandler.
Notation "v <- m ;; k" := (bind m (fun v => k))
  (at level 100, m at next level, right associativity) : pubhandler_scope.
Notation "m ;; k" := (bind m (fun _ => k))
  (at level 100, right associativity) : pubhandler_scope.
Local Open Scope pubhandler_scope.

Definition finished {S R} : Handler S R unit := ret tt.

Definition serve {S R} (h : Handler S R unit) (s : S) : Exchange S R :=
  snd (h (MkExchange s [] [] StatusOK)).

Section Handlers.
Context {S R : Type} `{PublicationRepository S R}.

Definition invoke {A} (c : StoreCall R) (op : S -> A * S) : Handler S R A :=
  fun x => let '(a, s') := op (db x) in
           (a, MkExchange s' (calls x ++ [c]) (written x) (httpStatus x)).

Definition render_Status (code : Z) : Handler S R unit :=
  fun x => (tt, MkExchange (db x) (calls x) (written x) code).

Definition render_Error (v : Response R) : Handler S R unit :=
  fun x => (tt, MkExchange (db x) (calls x) (written x ++ [v]) (httpStatus x)).

(** [PublicationPayload.Render] and [PublicationResponse.Render]. *)
Definition Publication_Render (p : PublicationInfo R) : option error := None.

Definition NewPublicationResponse (pub : PublicationInfo R) : PublicationInfo R := pub.

Definition NewPublicationListResponse (publications : list (PublicationInfo R))
  : list (PublicationInfo R) :=
  map NewPublicationResponse publications.

Definition render_Render (p : PublicationInfo R) : Handler S R (option error) :=
  match Publication_Render p with
  | Some e => ret (Some e)
  | None => fun x => (None, MkExchange (db x) (calls x)
                              (written x ++ [PublicationResponse (httpStatus x) p])
                              (httpStatus x))
  end.

Definition render_RenderList (ps : list (PublicationInfo R))
  : Handler S R (option error) :=
  match
    fold_left (fun acc p => match acc with
                            | Some e => Some e
                            | None => Publication_Render p
                            end) ps None
  with
  | Some e => ret (Some e)
  | None => fun x => (None, MkExchange (db x) (calls x)
                              (written x ++ [PublicationListResponse (httpStatus x) ps])
                              (httpStatus x))
  end.

(** The end of [ListPublications] and [SearchPublications]. *)
Definition renderList (publications : list (PublicationInfo R)) : Handler S R unit :=
  rerr <- render_RenderList (NewPublicationListResponse publications) ;;
  match rerr with
  | Some err => render_Error (ErrRender err)
  | None => finished
  end.

(** The end of the handlers that answer with one publication. *)
Definition renderOne (publication : PublicationInfo R) : Handler S R unit :=
  rerr <- render_Render (NewPublicationResponse publication) ;;
  match rerr with
  | Some err => render_Error (ErrRender err)
  | None => finished
  end.

(** Source lines 17 to 27 and 252 to 262. *)
Definition ListPublications {B} (r : Request B) : Handler S R unit :=
  found <- invoke CallListAll ListAll ;;
  match found with
  | Err err => render_Error (ErrRender err)
  | Ok publications => renderList publications
  end.

(** Source lines 30 to 64 and 265 to 299.  The pair [publications, err]
    is a [result]: [publications] is only read when [err] is nil. *)
Definition SearchPublications {B} (r : Request B) : Handler S R unit :=
  let format := query r "format" in
  if nonEmpty format then
    let '(contentType, err) :=
      if String.eqb format "epub" then ("application/epub+zip", None)
      else if String.eqb format "lcpdf" then ("application/pdf+lcp", None)
      else if String.eqb format "lcpau" then ("application/audiobook+lcp", None)
      else if String.eqb format "lcpdi" then ("application/divina+lcp", None)
      else ("", Some (Errorf "invalid content type query string parameter")) in
    found <- (if nonEmpty contentType
              then invoke (CallFindByType contentType) (FindByType contentType)
              else ret match err with
                       | Some e => Err e
                       | None => Ok []   (* an empty type comes with an error *)
                       end) ;;
    match found with
    | Err _ => render_Error ErrNotFound
    | Ok publications => renderList publications
    end
  else
    render_Error ErrNotFound.

(** Source lines 158 to 186 and 394 to 422. *)
Definition DeletePublication {B} (r : Request B) : Handler S R unit :=
  let publicationID := urlParam r "publicationID" in
  if nonEmpty publicationID then
    got <- invoke (CallGet publicationID) (Get publicationID) ;;
    match got with
    | Err _ => render_Error ErrNotFound
    | Ok publication =>
        res <- invoke (CallDelete publication) (Delete publication) ;;
        let '(publication, err) := res in
        match err with
        | Some err => render_Error (ErrInvalidRequest err)
        | None => renderOne publication
        end
    end
  else
    render_Error ErrNotFound.

End Handlers.

(** *** The handlers on [HandlerCtx] (source lines 17 to 235) *)

Module HandlerCtx.
Section Handlers.
Context {S R : Type} `{PublicationRepository S R}.

(** [PublicationPayload.Bind]; the embedded pointer may be nil. *)
Definition PublicationPayload_Bind (p : option (PublicationInfo R)) : option error :=
  match p with
  | None => Some (Errorf "missing required Publication payload")
  | Some info =>
      if String.eqb (UUID info) "" then Some (Errorf "missing required UUID")
      else if String.eqb (Title info) "" then Some (Errorf "missing required Title")
      else None
  end.

Definition render_Bind (r : Request (option (PublicationInfo R)))
  : result (option (PublicationInfo R)) :=
  match body r with
  | Err e => Err e
  | Ok data => match PublicationPayload_Bind data with
               | Some e => Err e
               | None => Ok data
               end
  end.

Definition CreatePublication (r : Request (option (PublicationInfo R)))
  : Handler S R unit :=
  match render_Bind r with
  | Err err => render_Error (ErrInvalidRequest err)
  | Ok None => finished   (* a nil payload does not pass [Bind] *)
  | Ok (Some publication) =>
      res <- invoke (CallCreate publication) (Create publication) ;;
      let '(publication, err) := res in
      match err with
      | Some err => render_Error (ErrRender err)
      | None => renderOne publication
      end
  end.

Definition GetPublication (r : Request (option (PublicationInfo R)))
  : Handler S R unit :=
  let publicationID := urlParam r "publicationID" in
  if nonEmpty publicationID then
    got <- invoke (CallGet publicationID) (Get publicationID) ;;
    match got with
    | Err _ => render_Error ErrNotFound
    | Ok publication => renderOne publication
    end
  else
    render_Error ErrNotFound.

Definition UpdatePublication (r : Request (option (PublicationInfo R)))
  : Handler S R unit :=
  match render_Bind r with
  | Err err => render_Error (ErrInvalidRequest err)
  | Ok None => finished   (* a nil payload does not pass [Bind] *)
  | Ok (Some publication) =>
      let publicationID := urlParam r "publicationID" in
      if nonEmpty publicationID then
        got <- invoke (CallGet publicationID) (Get publicationID) ;;
        match got with
        | Err _ => render_Error ErrNotFound
        | Ok currentPub =>
            (* set the gorm fields *)
            let publication := set_ID (ID currentPub) publication in
            let publication := set_CreatedAt (CreatedAt currentPub) publication in
            let publication := set_UpdatedAt (UpdatedAt currentPub) publication in
            let publication := set_DeletedAt (DeletedAt currentPub) publication in
            res <- invoke (CallUpdate publication) (Update publication) ;;
            let '(publication, err) := res in
            match err with
            | Some err => render_Error (ErrRender err)
            | None => renderOne publication
            end
        end
      else
        render_Error ErrNotFound
  end.

End Handlers.
End HandlerCtx.

(** *** The handlers on [APIHandler] (source lines 252 to 466)

    As for licenses, a body that decodes holds a publication. *)

Module APIHandler.
Section Handlers.
Context {S R : Type} `{PublicationRepository S R} `{PublicationValidator R}.

(** [PublicationRequest.Bind]. *)
Definition PublicationRequest_Bind (p : PublicationInfo R) : option error :=
  Validate p.

Definition render_Bind (r : Request (PublicationInfo R)) : result (PublicationInfo R) :=
  match body r with
  | Err e => Err e
  | Ok data => match PublicationRequest_Bind data with
               | Some e => Err e
               | None => Ok data
               end
  end.

Definition CreatePublication (r : Request (PublicationInfo R)) : Handler S R unit :=
  match render_Bind r with
  | Err err => render_Error (ErrInvalidRequest err)
  | Ok publication =>
      res <- invoke (CallCreate publication) (Create publication) ;;
      let '(publication, err) := res in
      match err with
      | Some err => render_Error (ErrRender err)
      | None =>
          render_Status StatusCreated ;;
          renderOne publication
      end
  end.

Definition GetPublication (r : Request (PublicationInfo R)) : Handler S R unit :=
  let publicationID := urlParam r "publicationID" in
  if nonEmpty publicationID then
    got <- invoke (CallGet publicationID) (Get publicationID) ;;
    match got with
    | Err _ => render_Error ErrNotFound
    | Ok publication => renderOne publication
    end
  else
    render_Error
      (ErrInvalidRequest (Errorf "missing required publication identifier")).

Definition UpdatePublication (r : Request (PublicationInfo R)) : Handler S R unit :=
  match render_Bind r with
  | Err err => render_Error (ErrInvalidRequest err)
  | Ok publication =>
      let publicationID := urlParam r "publicationID" in
      if nonEmpty publicationID then
        got <- invoke (CallGet publicationID) (Get publicationID) ;;
        match got with
        | Err _ => render_Error ErrNotFound
        | Ok currentPub =>
            (* set the gorm fields *)
            let publication := set_ID (ID currentPub) publication in
            let publication := set_CreatedAt (CreatedAt currentPub) publication in
            res <- invoke (CallUpdate publication) (Update publication) ;;
            let '(publication, err) := res in
            match err with
            | Some err => render_Error (ErrRender err)
            | None => renderOne publication
            end
        end
      else
        render_Error ErrNotFound
  end.

End Handlers.
End APIHandler.

End pubapi.

(** ** An in-memory publication repository

    Publications by UUID; the one field the handlers never name is the
    content type. *)

Module mempub.
Import pubstor pubapi.

Definition pubRows (s : gmap string (PublicationInfo string))
  : list (PublicationInfo string) :=
  map snd (map_to_list s).

#[export] Instance memPublications
  : PublicationRepository (gmap string (PublicationInfo string)) string := {
  ListAll s := (Ok (pubRows s), s);
  FindByType ct s := (Ok (List.filter (fun p => String.eqb (Rest p) ct) (pubRows s)), s);
  Create p s :=
    match s !! UUID p with
    | Some _ => ((p, Some (Foreign "duplicate publication")), s)
    | None => ((p, None), <[UUID p := p]> s)
    end;
  Get id s :=
    match s !! id with
    | Some p => (Ok p, s)
    | None => (Err (Foreign "record not found"), s)
    end;
  Update p s := ((p, None), <[UUID p := p]> s);
  Delete p s := ((p, None), delete (UUID p) s)
}.

(** A publication is valid when it has a UUID. *)
#[export] Instance memPubValidator : PublicationValidator string := {
  Validate p := if nonEmpty (UUID p) then None else Some (Foreign "validation failed")
}.

(** A stored EPUB, created at 1000 and updated at 2000. *)
Definition pub1 : PublicationInfo string :=
  MkPublicationInfo 7 1000 2000 None "uuid-1" "First" "application/epub+zip".

Definition pubStore1 : gmap string (PublicationInfo string) := <["uuid-1" := pub1]> ∅.

(** A payload for [uuid-1] with gorm fields of its own and a new title. *)
Definition pubPayload : PublicationInfo string :=
  MkPublicationInfo 99 1 2 (Some 3) "uuid-1" "Second" "application/pdf+lcp".

(** A payload without a title. *)
Definition untitled : PublicationInfo string :=
  MkPublicationInfo 0 0 0 None "uuid-2" "" "application/pdf+lcp".

Definition bare {B} : Request B :=
  MkRequest (fun _ => "") (fun _ => "") (Err (Foreign "EOF")).

Definition asking {B} (name value : string) (r : Request B) : Request B :=
  MkRequest (fun n => if String.eqb n name then value else query r n)
    (urlParam r) (body r).

Definition addressing {B} (name value : string) (r : Request B) : Request B :=
  MkRequest (query r)
    (fun n => if String.eqb n name then value else urlParam r n) (body r).

Definition carrying {A B} (b : B) (r : Request A) : Request B :=
  MkRequest (query r) (urlParam r) (Ok b).

End mempub.

(** * Properties of the handlers *)

(** Unfold one handler run down to the repository calls it makes. *)
Ltac run_handler :=
  unfold serve, bind, invoke, respond, render_Error, render_Status,
    render_Render, LicenseInfoResponse_Render, NewLicenseInfoResponse,
    finished, ret; simpl.

(** Membership in a one-element trace. *)
Ltac only_call H :=
  let E := fresh "E" in
  destruct H as [E | []]; inversion E; subst; clear E.

Section CreateProperties.
Context {S : Type} `{LicenseRepository S} `{Platform} (Cfg : Config).

(** What a run of [CreateLicense] on a bound payload leaves behind: one
    [Create], of a [ready] record with the defaulted [MaxEnd], and one
    response chosen by the repository's answer. *)
Lemma CreateLicense_bound r s payload :
  render_Bind r = Ok payload ->
  exists l,
    calls (serve (CreateLicense Cfg r) s) = [CallCreate l]
    /\ Status l = STATUS_READY
    /\ MaxEnd l = match End payload, MaxEnd payload with
                  | Some e, None => Some (AddDate e 0 0 (RenewMaxDays Cfg))
                  | _, received => received
                  end
    /\ written (serve (CreateLicense Cfg r) s) =
       match snd (fst (Create l s)) with
       | Some err => [ErrRender err]
       | None => [LicenseInfoResponse StatusCreated (fst (fst (Create l s)))]
       end.
Proof.
  intros Hb. unfold CreateLicense. rewrite Hb.
  match goal with
  | |- context [invoke (CallCreate ?l0) _] => exists l0
  end.
  run_handler.
  match goal with
  | |- context [Create ?l0 s] => destruct (Create l0 s) as [[l err] s']
  end.
  simpl. repeat split.
  - destruct err; reflexivity.
  - destruct (String.eqb (Status payload) STATUS_READY) eqn:E; simpl;
      destruct (End payload), (MaxEnd payload); simpl;
      try reflexivity; apply String.eqb_eq; exact E.
  - destruct (String.eqb (Status payload) STATUS_READY); simpl;
      destruct (End payload) eqn:E1; destruct (MaxEnd payload) eqn:E2;
      simpl; congruence.
  - destruct err; reflexivity.
Qed.

Lemma CreateLicense_unbound r s e :
  render_Bind r = Err e ->
  calls (serve (CreateLicense Cfg r) s) = []
  /\ written (serve (CreateLicense Cfg r) s) = [ErrInvalidRequest e].
Proof.
  intros Hb. unfold CreateLicense. rewrite Hb. run_handler. auto.
Qed.

(** C1. The record [CreateLicense] hands to the repository's [Create]
    has status [ready] whatever status the payload carried, and a bound
    payload always reaches [Create]; a license written back to the client
    is that record as [Create] left it, hence [ready] too for a
    repository that does not touch the status. *)
Theorem CreateLicense_forces_ready (r : Request) (s : S) :
  let x := serve (CreateLicense Cfg r) s in
  (forall l, In (CallCreate l) (calls x) -> Status l = STATUS_READY)
  /\ (forall payload, render_Bind r = Ok payload ->
        exists l, calls x = [CallCreate l] /\ Status l = STATUS_READY)
  /\ (forall code l, In (LicenseInfoResponse code l) (written x) ->
        exists l0, calls x = [CallCreate l0] /\ Status l0 = STATUS_READY
                   /\ l = fst (fst (Create l0 s))
                   /\ (keepsStatus Create -> Status l = STATUS_READY)).
Proof.
  intros x. subst x.
  destruct (render_Bind r) as [payload | e] eqn:Hb.
  - destruct (CreateLicense_bound r s payload Hb) as (l0 & Hc & Hs & _ & Hw).
    rewrite Hc, Hw. repeat split.
    + intros l Hin. only_call Hin. exact Hs.
    + intros p Hp. exists l0. split; [reflexivity | exact Hs].
    + intros code l Hin.
      exists l0.
      destruct (snd (fst (Create l0 s))).
      * destruct Hin as [E | []]; discriminate E.
      * only_call Hin.
        repeat split; try exact Hs.
        intros Hk. rewrite Hk. exact Hs.
  - destruct (CreateLicense_unbound r s e Hb) as [Hc Hw].
    rewrite Hc, Hw. repeat split.
    + intros l [].
    + intros p Hp. discriminate Hp.
    + intros code l Hin. destruct Hin as [E | []]; discriminate E.
Qed.

(** C2. On a bound payload [CreateLicense] passes exactly one record to
    [Create]; its [MaxEnd] is [End] plus [RenewMaxDays] days when the
    payload has an [End] and no [MaxEnd], and the payload's [MaxEnd]
    otherwise. *)
Theorem CreateLicense_defaults_MaxEnd (r : Request) (s : S) (payload : LicenseInfo) :
  render_Bind r = Ok payload ->
  exists l, calls (serve (CreateLicense Cfg r) s) = [CallCreate l]
    /\ match End payload, MaxEnd payload with
       | Some e, None => MaxEnd l = Some (AddDate e 0 0 (RenewMaxDays Cfg))
       | _, received => MaxEnd l = received
       end.
Proof.
  intros Hb.
  destruct (CreateLicense_bound r s payload Hb) as (l & Hc & _ & Hm & _).
  exists l. split; [exact Hc |].
  rewrite Hm. destruct (End payload), (MaxEnd payload); reflexivity.
Qed.

End CreateProperties.

Section RecordProperties.
Context {S : Type} `{LicenseRepository S} `{Platform}.

(** [GetLicense], by cases on the identifier and on the repository. *)
Lemma GetLicense_run r s :
  let id := urlParam r "licenseID" in
  let x := serve (GetLicense r) s in
  if nonEmpty id then
    calls x = [CallGet id]
    /\ written x = match fst (Get id s) with
                   | Err _ => [ErrNotFound]
                   | Ok license => [LicenseInfoResponse StatusOK license]
                   end
  else
    calls x = []
    /\ written x = [ErrInvalidRequest (Errorf "missing required license identifier")].
Proof.
  intros id x. subst id x. unfold GetLicense.
  destruct (nonEmpty (urlParam r "licenseID")); run_handler; [| auto].
  destruct (Get (urlParam r "licenseID") s) as [[license | e] s1]; simpl; auto.
Qed.

(** [DeleteLicense], by cases on the identifier and on the repository. *)
Lemma DeleteLicense_run r s :
  let id := urlParam r "licenseID" in
  let x := serve (DeleteLicense r) s in
  if nonEmpty id then
    match Get id s with
    | (Err _, _) => calls x = [CallGet id] /\ written x = [ErrNotFound]
    | (Ok license, s1) =>
        calls x = [CallGet id; CallDelete license]
        /\ written x = match snd (fst (Delete license s1)) with
                       | Some err => [ErrInvalidRequest err]
                       | None => [LicenseInfoResponse StatusOK
                                    (fst (fst (Delete license s1)))]
                       end
    end
  else
    calls x = [] /\ written x = [ErrNotFound].
Proof.
  intros id x. subst id x. unfold DeleteLicense.
  destruct (nonEmpty (urlParam r "licenseID")); run_handler; [| auto].
  destruct (Get (urlParam r "licenseID") s) as [[license | e] s1]; simpl; auto.
  destruct (Delete license s1) as [[l err] s2]; simpl.
  destruct err; simpl; auto.
Qed.

(** [UpdateLicense] when the repository knows the license: one [Get],
    then one [Update] of the payload carrying the stored [ID] and
    [CreatedAt] and otherwise untouched. *)
Lemma UpdateLicense_found r s payload currentLic s1 :
  render_Bind r = Ok payload ->
  nonEmpty (urlParam r "licenseID") = true ->
  Get (urlParam r "licenseID") s = (Ok currentLic, s1) ->
  let x := serve (UpdateLicense r) s in
  let l := set_CreatedAt (CreatedAt currentLic) (set_ID (ID currentLic) payload) in
  calls x = [CallGet (urlParam r "licenseID"); CallUpdate l]
  /\ written x = match snd (fst (Update l s1)) with
                 | Some err => [ErrRender err]
                 | None => [LicenseInfoResponse StatusOK (fst (fst (Update l s1)))]
                 end.
Proof.
  intros Hb Hid Hg x l. subst x l. unfold UpdateLicense.
  rewrite Hb, Hid. run_handler. rewrite Hg. simpl.
  match goal with
  | |- context [Update ?l0 s1] => destruct (Update l0 s1) as [[l err] s2]
  end.
  simpl. destruct err; simpl; auto.
Qed.

(** [UpdateLicense] in every other case makes no [Update]. *)
Lemma UpdateLicense_stopped r s :
  let id := urlParam r "licenseID" in
  let x := serve (UpdateLicense r) s in
  match render_Bind r with
  | Err e => calls x = [] /\ written x = [ErrInvalidRequest e]
  | Ok _ =>
      if nonEmpty id then
        forall e s1, Get id s = (Err e, s1) ->
          calls x = [CallGet id] /\ written x = [ErrNotFound]
      else calls x = [] /\ written x = [ErrNotFound]
  end.
Proof.
  intros id x. subst id x. unfold UpdateLicense.
  destruct (render_Bind r) as [payload | e]; [| run_handler; auto].
  destruct (nonEmpty (urlParam r "licenseID")); [| run_handler; auto].
  intros e s1 Hg. run_handler. rewrite Hg. simpl. auto.
Qed.

(** C5. When [UpdateLicense] finds the addressed record, the one record
    it passes to the repository's [Update] carries the [ID] and the
    [CreatedAt] of the record [Get] returned, whatever the payload had
    in those fields. *)
Theorem UpdateLicense_keeps_ID_CreatedAt
    (r : Request) (s s1 : S) (payload currentLic : LicenseInfo) :
  render_Bind r = Ok payload ->
  urlParam r "licenseID" <> "" ->
  Get (urlParam r "licenseID") s = (Ok currentLic, s1) ->
  exists l,
    calls (serve (UpdateLicense r) s) = [CallGet (urlParam r "licenseID"); CallUpdate l]
    /\ ID l = ID currentLic
    /\ CreatedAt l = CreatedAt currentLic.
Proof.
  intros Hb Hid Hg.
  assert (Hne : nonEmpty (urlParam r "licenseID") = true).
  { unfold nonEmpty. destruct (String.eqb_spec (urlParam r "licenseID") ""); tauto. }
  destruct (UpdateLicense_found r s payload currentLic s1 Hb Hne Hg) as [Hc _].
  eexists. split; [exact Hc |]. split; reflexivity.
Qed.

(** C3, as the handler has it.  When [UpdateLicense] finds the addressed
    record, the status of the one record it passes to [Update] is the
    status of the request payload; the stored status is not consulted. *)
Theorem UpdateLicense_status_is_payload
    (r : Request) (s s1 : S) (payload currentLic : LicenseInfo) :
  render_Bind r = Ok payload ->
  urlParam r "licenseID" <> "" ->
  Get (urlParam r "licenseID") s = (Ok currentLic, s1) ->
  exists l,
    calls (serve (UpdateLicense r) s) = [CallGet (urlParam r "licenseID"); CallUpdate l]
    /\ Status l = Status payload.
Proof.
  intros Hb Hid Hg.
  assert (Hne : nonEmpty (urlParam r "licenseID") = true).
  { unfold nonEmpty. destruct (String.eqb_spec (urlParam r "licenseID") ""); tauto. }
  destruct (UpdateLicense_found r s payload currentLic s1 Hb Hne Hg) as [Hc _].
  eexists. split; [exact Hc | reflexivity].
Qed.

(** X27. The handler reads no clock.  When [UpdateLicense] finds the
    addressed record, the one record it passes to [Update] has the
    [UpdatedAt] of the request payload and the [CreatedAt] of the stored
    record, so that [CreatedAt <= UpdatedAt] holds on it exactly when the
    payload's [UpdatedAt] is not before the stored [CreatedAt]; what the
    repository then writes is its own business. *)
Theorem UpdateLicense_UpdatedAt_is_payload
    (r : Request) (s s1 : S) (payload currentLic : LicenseInfo) :
  render_Bind r = Ok payload ->
  urlParam r "licenseID" <> "" ->
  Get (urlParam r "licenseID") s = (Ok currentLic, s1) ->
  exists l,
    calls (serve (UpdateLicense r) s) = [CallGet (urlParam r "licenseID"); CallUpdate l]
    /\ UpdatedAt l = UpdatedAt payload
    /\ CreatedAt l = CreatedAt currentLic
    /\ (CreatedAt l <= UpdatedAt l <-> CreatedAt currentLic <= UpdatedAt payload).
Proof.
  intros Hb Hid Hg.
  assert (Hne : nonEmpty (urlParam r "licenseID") = true).
  { unfold nonEmpty. destruct (String.eqb_spec (urlParam r "licenseID") ""); tauto. }
  destruct (UpdateLicense_found r s payload currentLic s1 Hb Hne Hg) as [Hc _].
  eexists. split; [exact Hc |]. simpl. tauto.
Qed.

(** C6. Let [id] be the [licenseID] of the URL and let the repository's
    [Get id] fail.  Then [GetLicense] and [DeleteLicense], whenever [id]
    is not empty, and [UpdateLicense], whenever moreover the payload is
    bound, make that [Get] as their only repository call and answer
    [ErrNotFound]; in every case none of the three handlers makes any
    call other than that [Get], so no [Update] and no [Delete]; and
    [GetLicense] answers [ErrNotFound] exactly when [id] is not empty and
    [Get id] fails. *)
Theorem absent_license_is_NotFound (r : Request) (s : S) :
  let id := urlParam r "licenseID" in
  (forall e s1, id <> "" -> Get id s = (Err e, s1) ->
      calls (serve (GetLicense r) s) = [CallGet id]
      /\ written (serve (GetLicense r) s) = [ErrNotFound])
  /\ (forall payload e s1,
      render_Bind r = Ok payload -> id <> "" -> Get id s = (Err e, s1) ->
      calls (serve (UpdateLicense r) s) = [CallGet id]
      /\ written (serve (UpdateLicense r) s) = [ErrNotFound])
  /\ (forall e s1, id <> "" -> Get id s = (Err e, s1) ->
      calls (serve (DeleteLicense r) s) = [CallGet id]
      /\ written (serve (DeleteLicense r) s) = [ErrNotFound])
  /\ (forall e s1, Get id s = (Err e, s1) ->
      forall c,
        In c (calls (serve (GetLicense r) s))
        \/ In c (calls (serve (UpdateLicense r) s))
        \/ In c (calls (serve (DeleteLicense r) s)) ->
        c = CallGet id)
  /\ (written (serve (GetLicense r) s) = [ErrNotFound] <->
      id <> "" /\ exists e s1, Get id s = (Err e, s1)).
Proof.
  intros id. subst id.
  pose proof (GetLicense_run r s) as HG.
  pose proof (DeleteLicense_run r s) as HD.
  pose proof (UpdateLicense_stopped r s) as HU.
  cbv zeta in HG, HD, HU.
  assert (Hne : forall v, v <> "" -> nonEmpty v = true).
  { intros v Hv. unfold nonEmpty. destruct (String.eqb_spec v ""); tauto. }
  assert (Hen : forall v, nonEmpty v = true -> v <> "").
  { intros v Hv E. subst v. discriminate Hv. }
  split; [| split; [| split; [| split]]].
  - intros e s1 Hid Hg. rewrite (Hne _ Hid), Hg in HG. exact HG.
  - intros payload e s1 Hb Hid Hg. rewrite Hb, (Hne _ Hid) in HU.
    exact (HU e s1 Hg).
  - intros e s1 Hid Hg. rewrite (Hne _ Hid), Hg in HD. exact HD.
  - intros e s1 Hg c [Hin | [Hin | Hin]].
    + destruct (nonEmpty (urlParam r "licenseID")); destruct HG as [Hc _];
        rewrite Hc in Hin; [destruct Hin as [E | []]; symmetry; exact E | destruct Hin].
    + destruct (render_Bind r) as [payload | e0].
      * destruct (nonEmpty (urlParam r "licenseID")).
        -- destruct (HU e s1 Hg) as [Hc _]. rewrite Hc in Hin.
           destruct Hin as [E | []]. symmetry. exact E.
        -- destruct HU as [Hc _]. rewrite Hc in Hin. destruct Hin.
      * destruct HU as [Hc _]. rewrite Hc in Hin. destruct Hin.
    + destruct (nonEmpty (urlParam r "licenseID")).
      * rewrite Hg in HD. destruct HD as [Hc _]. rewrite Hc in Hin.
        destruct Hin as [E | []]. symmetry. exact E.
      * destruct HD as [Hc _]. rewrite Hc in Hin. destruct Hin.
  - destruct (nonEmpty (urlParam r "licenseID")) eqn:Hid.
    + destruct HG as [_ Hw]. rewrite Hw.
      destruct (Get (urlParam r "licenseID") s) as [[cur | e1] s2] eqn:Hg0; simpl.
      * split; [intros E; discriminate E |].
        intros (_ & e & s1 & Hg). discriminate Hg.
      * split; [| reflexivity].
        intros _. split; [exact (Hen _ Hid) |]. exists e1, s2. reflexivity.
    + destruct HG as [_ Hw]. rewrite Hw.
      split; [intros E; discriminate E |].
      intros (Hne0 & _). apply Hne in Hne0. congruence.
Qed.

End RecordProperties.

Section SearchProperties.
Context {S : Type} `{LicenseRepository S} `{Platform}.

(** No element's [Render] ever fails, so [render.RenderList] always
    reaches its response. *)
Lemma RenderList_all_ok (ls : list LicenseInfo) :
  fold_left (fun acc l => match acc with
                          | Some e => Some e
                          | None => LicenseInfoResponse_Render l
                          end) ls None = None.
Proof. induction ls as [| l ls IH]; simpl; [reflexivity | exact IH]. Qed.

(** A branch of [SearchLicenses] that queries the repository makes that
    one call and appends one response. *)
Lemma query_then_render (c : StoreCall) (op : S -> result (list LicenseInfo) * S)
    (x : Exchange S) :
  httpStatus x = StatusOK ->
  let x' := snd (bind (invoke c op) renderFound x) in
  calls x' = (calls x ++ [c])%list
  /\ written x' = (written x ++ [foundResponse (fst (op (db x)))])%list.
Proof.
  intros Hst. unfold bind, invoke.
  destruct (op (db x)) as [[licenses | err] s1]; simpl.
  - unfold render_RenderList, NewLicenseInfoListResponse, NewLicenseInfoResponse.
    rewrite map_id, RenderList_all_ok. simpl. rewrite Hst. auto.
  - auto.
Qed.

(** The [count] branch once the parameter has split in two: both parts go
    through [strconv.Atoi], each failure writes an error, and the
    repository is queried with whatever values came out. *)
Lemma SearchLicenses_count_two_parts (r : Request) (s : S) (a b : string) :
  query r "user" = "" -> query r "pub" = "" -> query r "status" = "" ->
  query r "count" <> "" ->
  strings_Split (query r "count") ":" = [a; b] ->
  let x := serve (SearchLicenses r) s in
  let complaint (p : string) :=
    match snd (strconv_Atoi p) with
    | Some e => [ErrInvalidRequest e]
    | None => []
    end in
  calls x = [CallFindByDeviceCount (fst (strconv_Atoi a)) (fst (strconv_Atoi b))]
  /\ written x = (complaint a ++ complaint b
       ++ [foundResponse
             (fst (FindByDeviceCount (fst (strconv_Atoi a)) (fst (strconv_Atoi b)) s))])%list.
Proof.
  intros Hu Hp Hs Hc Hsplit x complaint. subst x complaint.
  unfold serve, SearchLicenses. rewrite Hu, Hp, Hs, Hsplit.
  assert (Hne : nonEmpty (query r "count") = true).
  { unfold nonEmpty. destruct (String.eqb_spec (query r "count") ""); tauto. }
  rewrite Hne. cbn [nonEmpty String.eqb negb length Nat.eqb nth].
  destruct (strconv_Atoi a) as [lo ea], (strconv_Atoi b) as [hi eb].
  cbn [fst snd].
  destruct ea as [ea |], eb as [eb |];
    unfold bind, render_Error, respond, ret, invoke;
    cbn [calls written db httpStatus app];
    destruct (FindByDeviceCount lo hi s) as [[licenses | err] s1];
    cbn [renderFound foundResponse fst snd];
    unfold bind, render_RenderList, NewLicenseInfoListResponse,
      NewLicenseInfoResponse, render_Error, respond, finished, ret;
    rewrite ?map_id, ?RenderList_all_ok; split; reflexivity.
Qed.

(** C9, at the failing input.  With [count=a:1] and no other parameter,
    whatever the repository, [SearchLicenses] writes the invalid-request
    error for [a], then still calls [FindByDeviceCount(0, 1)] and writes
    a second response. *)
Theorem SearchLicenses_unparsable_count_reaches_store (s : S) :
  let x := serve (SearchLicenses (withQuery "count" "a:1" emptyRequest)) s in
  calls x = [CallFindByDeviceCount 0 1]
  /\ written x = [ErrInvalidRequest (NumError "Atoi" "a" ErrSyntax);
                  foundResponse (fst (FindByDeviceCount 0 1 s))].
Proof.
  apply (SearchLicenses_count_two_parts
           (withQuery "count" "a:1" emptyRequest) s "a" "1");
    try reflexivity.
  discriminate.
Qed.

(** C10, as the handler has it.  The first non-empty parameter among
    [user], [pub], [status], [count] decides.  For [user], [pub] and
    [status] the one repository call is the matching query.  For [count]
    it is [FindByDeviceCount] on the two parsed bounds when the value
    splits at colons in two parts that both parse, and there is no call
    at all, only an invalid-request error, when it does not split in two.
    With all four empty the answer is [ErrNotFound] and there is no call. *)
Theorem SearchLicenses_precedence (r : Request) (s : S) :
  let x := serve (SearchLicenses r) s in
  let user := query r "user" in
  let pub := query r "pub" in
  let status := query r "status" in
  let count := query r "count" in
  (user <> "" -> calls x = [CallFindByUser user])
  /\ (user = "" -> pub <> "" -> calls x = [CallFindByPublication pub])
  /\ (user = "" -> pub = "" -> status <> "" -> calls x = [CallFindByStatus status])
  /\ (user = "" -> pub = "" -> status = "" -> count <> "" ->
      match strings_Split count ":" with
      | [a; b] =>
          forall lo hi, strconv_Atoi a = (lo, None) -> strconv_Atoi b = (hi, None) ->
            calls x = [CallFindByDeviceCount lo hi]
      | _ =>
          calls x = []
          /\ written x =
             [ErrInvalidRequest (Errorf ("invalid count parameter: " +:+ count))]
      end)
  /\ (user = "" -> pub = "" -> status = "" -> count = "" ->
      calls x = [] /\ written x = [ErrNotFound]).
Proof.
  intros x user pub status count. subst x user pub status count.
  assert (Hne : forall v, v <> "" -> nonEmpty v = true).
  { intros v Hv. unfold nonEmpty. destruct (String.eqb_spec v ""); tauto. }
  assert (Hq : forall c op, calls (serve (bind (invoke c op) renderFound) s) = [c]).
  { intros c op.
    apply (query_then_render c op (MkExchange s [] [] StatusOK) eq_refl). }
  split; [| split; [| split; [| split]]].
  - intros Hu. unfold SearchLicenses. rewrite (Hne _ Hu). apply Hq.
  - intros Hu Hp. unfold SearchLicenses. rewrite Hu, (Hne _ Hp). apply Hq.
  - intros Hu Hp Hs. unfold SearchLicenses. rewrite Hu, Hp, (Hne _ Hs). apply Hq.
  - intros Hu Hp Hs Hc.
    destruct (strings_Split (query r "count") ":") as [| a [| b [| c0 rest]]] eqn:Hsplit.
    + unfold SearchLicenses. rewrite Hu, Hp, Hs, (Hne _ Hc), Hsplit. auto.
    + unfold SearchLicenses. rewrite Hu, Hp, Hs, (Hne _ Hc), Hsplit. auto.
    + intros lo hi Ha Hb.
      destruct (SearchLicenses_count_two_parts r s a b Hu Hp Hs Hc Hsplit) as [Hcs _].
      rewrite Hcs, Ha, Hb. reflexivity.
    + unfold SearchLicenses. rewrite Hu, Hp, Hs, (Hne _ Hc), Hsplit. auto.
  - intros Hu Hp Hs Hc. unfold SearchLicenses. rewrite Hu, Hp, Hs, Hc. auto.
Qed.

End SearchProperties.

(** * Properties of the lifecycle engine *)

(** C7. A record whose status is [returned], [revoked] or [cancelled]
    keeps that status under [currentStatus], whatever [now] is and
    whatever its [End] and [DeviceCount] are set to. *)
Theorem currentStatus_terminal_sticky
    (record : LicenseInfo) (now : Time) (e : option Time) (deviceCount : Z) :
  Status record = STATUS_RETURNED \/ Status record = STATUS_REVOKED
    \/ Status record = STATUS_CANCELLED ->
  currentStatus (set_End e (set_DeviceCount deviceCount record)) now = Status record.
Proof.
  intros Hterm. unfold currentStatus. cbn [Status set_End set_DeviceCount].
  assert (Ht : isTerminal (Status record) = true).
  { unfold isTerminal. destruct Hterm as [E | [E | E]]; rewrite E; reflexivity. }
  rewrite Ht. reflexivity.
Qed.

(** C8. After a successful [renew] the record has an [End]; it is not
    before the previous [End] when there was one, not after the previous
    [MaxEnd] when there was one, and not after the [MaxEnd] of the
    renewed record. *)
Theorem renew_extends_within_MaxEnd `{Platform}
    (record : LicenseInfo) (requestedEnd : option Time) (now : Time)
    (maxRenewDays : Z) (renewed : LicenseInfo) :
  renew record requestedEnd now maxRenewDays = inl renewed ->
  exists newEnd,
    End renewed = Some newEnd
    /\ (forall e, End record = Some e -> e <= newEnd)
    /\ (forall m, MaxEnd record = Some m -> newEnd <= m)
    /\ (exists m, MaxEnd renewed = Some m /\ newEnd <= m).
Proof.
  unfold renew.
  destruct (negb _); [discriminate |].
  match goal with
  | |- context [set_End (Some ?n) record] => set (newEnd := n)
  end.
  intros Hr. exists newEnd.
  destruct (MaxEnd record) as [m |] eqn:Hm.
  - destruct (m <? newEnd) eqn:Hlate; [discriminate |].
    apply Z.ltb_ge in Hlate.
    destruct (End record) as [e0 |] eqn:He.
    + destruct (newEnd <=? now); [discriminate |].
      destruct (newEnd <? e0) eqn:Hshrink; [discriminate |].
      apply Z.ltb_ge in Hshrink. cbn in Hr. rewrite Hm in Hr.
      injection Hr as <-. cbn.
      repeat split.
      * intros e [= <-]. exact Hshrink.
      * intros m0 [= <-]. exact Hlate.
      * exists m. split; [exact Hm | exact Hlate].
    + destruct (newEnd <=? now); [discriminate |].
      cbn in Hr. rewrite Hm in Hr.
      injection Hr as <-. cbn.
      repeat split.
      * intros e He0. discriminate He0.
      * intros m0 [= <-]. exact Hlate.
      * exists m. split; [exact Hm | exact Hlate].
  - destruct (End record) as [e0 |] eqn:He.
    + destruct (newEnd <=? now); [discriminate |].
      destruct (newEnd <? e0) eqn:Hshrink; [discriminate |].
      apply Z.ltb_ge in Hshrink. cbn in Hr. rewrite Hm in Hr.
      injection Hr as <-. cbn.
      repeat split.
      * intros e [= <-]. exact Hshrink.
      * intros m0 Hm0. discriminate Hm0.
      * exists newEnd. split; [reflexivity | lia].
    + destruct (newEnd <=? now); [discriminate |].
      cbn in Hr. rewrite Hm in Hr.
      injection Hr as <-. cbn.
      repeat split.
      * intros e He0. discriminate He0.
      * intros m0 Hm0. discriminate Hm0.
      * exists newEnd. split; [reflexivity | lia].
Qed.

(** * Concrete runs on the in-memory repository *)

Lemma CreateLicense_forces_ready_witness :
  exists l0,
    calls (serve (CreateLicense memConfig createRequest) store1) = [CallCreate l0]
    /\ Status l0 = STATUS_READY
    /\ set_Status STATUS_READY (set_MaxEnd (Some 704800) createPayload)
       = fst (fst (Create l0 store1))
    /\ (keepsStatus (S := gmap string LicenseInfo) Create ->
        Status (set_Status STATUS_READY (set_MaxEnd (Some 704800) createPayload))
        = STATUS_READY).
Proof.
  apply (proj2 (proj2 (CreateLicense_forces_ready memConfig createRequest store1))
           StatusCreated).
  vm_compute. left. reflexivity.
Defined.

Lemma CreateLicense_defaults_MaxEnd_witness :
  render_Bind createRequest = Ok createPayload
  /\ exists l,
       calls (serve (CreateLicense memConfig createRequest) store1) = [CallCreate l]
       /\ MaxEnd l = Some (100000 + 86400 * 7).
Proof.
  split; [reflexivity |].
  exact (CreateLicense_defaults_MaxEnd memConfig createRequest store1 createPayload
           eq_refl).
Defined.

Lemma UpdateLicense_keeps_ID_CreatedAt_witness :
  exists l,
    calls (serve (UpdateLicense updateRequest) store1) = [CallGet "L1"; CallUpdate l]
    /\ ID l = "L1"
    /\ CreatedAt l = 5000.
Proof.
  apply (UpdateLicense_keeps_ID_CreatedAt updateRequest store1 store1 updatePayload lic1).
  - reflexivity.
  - discriminate.
  - vm_compute. reflexivity.
Defined.

Lemma UpdateLicense_status_is_payload_witness :
  exists l,
    calls (serve (UpdateLicense updateRequest) store1) = [CallGet "L1"; CallUpdate l]
    /\ Status l = STATUS_REVOKED.
Proof.
  apply (UpdateLicense_status_is_payload updateRequest store1 store1 updatePayload lic1).
  - reflexivity.
  - discriminate.
  - vm_compute. reflexivity.
Defined.

Lemma UpdateLicense_UpdatedAt_is_payload_witness :
  exists l,
    calls (serve (UpdateLicense updateRequest) store1) = [CallGet "L1"; CallUpdate l]
    /\ UpdatedAt l = 2
    /\ CreatedAt l = 5000
    /\ (CreatedAt l <= UpdatedAt l <-> 5000 <= 2).
Proof.
  apply (UpdateLicense_UpdatedAt_is_payload updateRequest store1 store1 updatePayload lic1).
  - reflexivity.
  - discriminate.
  - vm_compute. reflexivity.
Defined.

Lemma absent_license_is_NotFound_witness :
  (calls (serve (GetLicense missingRequest) store1) = [CallGet "nope"]
   /\ written (serve (GetLicense missingRequest) store1) = [ErrNotFound])
  /\ (calls (serve (UpdateLicense missingRequest) store1) = [CallGet "nope"]
      /\ written (serve (UpdateLicense missingRequest) store1) = [ErrNotFound])
  /\ (calls (serve (DeleteLicense missingRequest) store1) = [CallGet "nope"]
      /\ written (serve (DeleteLicense missingRequest) store1) = [ErrNotFound]).
Proof.
  assert (Hid : urlParam missingRequest "licenseID" <> "") by discriminate.
  assert (Hg : Get (urlParam missingRequest "licenseID") store1
               = (Err (Foreign "record not found"), store1))
    by (vm_compute; reflexivity).
  destruct (absent_license_is_NotFound missingRequest store1)
    as (HG & HU & HD & _).
  split; [| split].
  - exact (HG _ _ Hid Hg).
  - exact (HU updatePayload _ _ eq_refl Hid Hg).
  - exact (HD _ _ Hid Hg).
Defined.

Lemma currentStatus_terminal_sticky_witness :
  currentStatus (set_End (Some 5) (set_DeviceCount 3 revokedLic)) 1000000
  = STATUS_REVOKED.
Proof.
  apply (currentStatus_terminal_sticky revokedLic 1000000 (Some 5) 3).
  right. left. reflexivity.
Defined.

Lemma renew_extends_within_MaxEnd_witness :
  renew lic1 (Some 120000) 6000 7
    = inl (set_UpdatedAt 6000 (set_End (Some 120000) lic1))
  /\ exists newEnd,
       End (set_UpdatedAt 6000 (set_End (Some 120000) lic1)) = Some newEnd
       /\ (forall e, End lic1 = Some e -> e <= newEnd)
       /\ (forall m, MaxEnd lic1 = Some m -> newEnd <= m)
       /\ (exists m, MaxEnd (set_UpdatedAt 6000 (set_End (Some 120000) lic1)) = Some m
                     /\ newEnd <= m).
Proof.
  split; [reflexivity |].
  apply (renew_extends_within_MaxEnd lic1 (Some 120000) 6000 7).
  reflexivity.
Defined.

Lemma SearchLicenses_precedence_witness :
  calls (serve (SearchLicenses
                  (withQuery "user" "alice" (withQuery "count" "0:1" emptyRequest)))
           store1)
  = [CallFindByUser "alice"].
Proof.
  apply (proj1 (SearchLicenses_precedence
                  (withQuery "user" "alice" (withQuery "count" "0:1" emptyRequest))
                  store1)).
  discriminate.
Defined.

(** C3 does not hold as stated: [L1] is stored with status [ready], the
    payload says [revoked], and the record passed to [Update] says
    [revoked]. *)
Lemma UpdateLicense_status_not_stored :
  Get "L1" store1 = (Ok lic1, store1)
  /\ exists l,
       In (CallUpdate l) (calls (serve (UpdateLicense updateRequest) store1))
       /\ Status l <> Status lic1.
Proof.
  split; [vm_compute; reflexivity |].
  exists (set_CreatedAt 5000 (set_ID "L1" updatePayload)).
  split.
  - vm_compute. right. left. reflexivity.
  - discriminate.
Qed.

(** C10 does not hold as stated: with [count=7] as the only parameter a
    criterion is present, yet no repository query is made. *)
Lemma SearchLicenses_count_without_query :
  query (withQuery "count" "7" emptyRequest) "count" <> ""
  /\ calls (serve (SearchLicenses (withQuery "count" "7" emptyRequest)) store1) = []
  /\ ~ (exists c,
          calls (serve (SearchLicenses (withQuery "count" "7" emptyRequest)) store1)
          = [c]).
Proof.
  split; [discriminate |].
  split; [vm_compute; reflexivity |].
  intros [c Hc]. vm_compute in Hc. discriminate Hc.
Qed.

(** * Further properties of the license handlers *)

Section LicenseHandlerProperties.
Context {S : Type} `{LicenseRepository S} `{Platform}.

(** [strings.Split] yields one field more than there are separators. *)
Lemma strings_Split_length (s : string) (sep : ascii) :
  length (strings_Split s sep) = Datatypes.S (strings_Count s sep).
Proof.
  induction s as [| c rest IH]; [reflexivity |].
  simpl. destruct (Ascii.eqb c sep).
  - simpl. rewrite IH. reflexivity.
  - destruct (strings_Split rest sep) as [| f fs]; simpl in *; [discriminate IH | exact IH].
Qed.

(** A branch of [SearchLicenses] that queries the repository, run on a
    fresh exchange. *)
Lemma search_branch (c : StoreCall) (op : S -> result (list LicenseInfo) * S) (s : S) :
  calls (serve (bind (invoke c op) renderFound) s) = [c]
  /\ written (serve (bind (invoke c op) renderFound) s) = [foundResponse (fst (op s))].
Proof.
  apply (query_then_render c op (MkExchange s [] [] StatusOK) eq_refl).
Qed.

Lemma nonEmpty_true (v : string) : v <> "" -> nonEmpty v = true.
Proof. intros Hv. unfold nonEmpty. destruct (String.eqb_spec v ""); tauto. Qed.

(** X1. [ListLicenses] makes the one call [ListAll] and answers with the
    licenses as the repository returned them, in a 200 list response, or
    with [ErrRender] carrying the repository's error. *)
Theorem ListLicenses_answers_with_all (r : Request) (s : S) :
  calls (serve (ListLicenses r) s) = [CallListAll]
  /\ written (serve (ListLicenses r) s) =
     [match fst (ListAll s) with
      | Err e => ErrRender e
      | Ok licenses => LicenseInfoListResponse StatusOK licenses
      end].
Proof.
  exact (search_branch CallListAll ListAll s).
Qed.

(** X2. When [user], [pub] or [status] decides a search, or [count] with
    two parts that both parse, the single response is the list the
    repository returned (200, possibly empty) or [ErrRender] with the
    repository's error. *)
Theorem SearchLicenses_answers_with_found (r : Request) (s : S) :
  let x := serve (SearchLicenses r) s in
  (query r "user" <> "" ->
     written x = [foundResponse (fst (FindByUser (query r "user") s))])
  /\ (query r "user" = "" -> query r "pub" <> "" ->
     written x = [foundResponse (fst (FindByPublication (query r "pub") s))])
  /\ (query r "user" = "" -> query r "pub" = "" -> query r "status" <> "" ->
     written x = [foundResponse (fst (FindByStatus (query r "status") s))])
  /\ (query r "user" = "" -> query r "pub" = "" -> query r "status" = "" ->
     query r "count" <> "" ->
     forall a b lo hi,
       strings_Split (query r "count") ":" = [a; b] ->
       strconv_Atoi a = (lo, None) -> strconv_Atoi b = (hi, None) ->
       written x = [foundResponse (fst (FindByDeviceCount lo hi s))]).
Proof.
  intros x. subst x.
  split; [| split; [| split]].
  - intros Hu. unfold SearchLicenses. rewrite (nonEmpty_true _ Hu).
    apply search_branch.
  - intros Hu Hp. unfold SearchLicenses. rewrite Hu, (nonEmpty_true _ Hp).
    apply search_branch.
  - intros Hu Hp Hs. unfold SearchLicenses. rewrite Hu, Hp, (nonEmpty_true _ Hs).
    apply search_branch.
  - intros Hu Hp Hs Hc a b lo hi Hsplit Ha Hb.
    destruct (SearchLicenses_count_two_parts r s a b Hu Hp Hs Hc Hsplit) as [_ Hw].
    rewrite Hw, Ha, Hb. reflexivity.
Qed.

(** X3. When [count] decides a search and its value does not hold exactly
    one colon, no repository call is made and the single response is the
    invalid-request error quoting the value. *)
Theorem SearchLicenses_count_needs_one_colon (r : Request) (s : S) :
  query r "user" = "" -> query r "pub" = "" -> query r "status" = "" ->
  query r "count" <> "" ->
  strings_Count (query r "count") ":" <> 1%nat ->
  calls (serve (SearchLicenses r) s) = []
  /\ written (serve (SearchLicenses r) s) =
     [ErrInvalidRequest (Errorf ("invalid count parameter: " +:+ query r "count"))].
Proof.
  intros Hu Hp Hs Hc Hn.
  unfold SearchLicenses. rewrite Hu, Hp, Hs, (nonEmpty_true _ Hc).
  cbn [nonEmpty String.eqb negb].
  assert (Hlen : Nat.eqb (length (strings_Split (query r "count") ":")) 2 = false).
  { rewrite strings_Split_length. apply Nat.eqb_neq. lia. }
  rewrite Hlen. auto.
Qed.

(** X4. Whatever the request, [SearchLicenses] makes at most one
    repository call and writes between one and three responses; it writes
    more than one only when [count] decides, splits in two parts and one
    of them fails to parse. *)
Theorem SearchLicenses_effort (r : Request) (s : S) :
  let x := serve (SearchLicenses r) s in
  (length (calls x) <= 1)%nat
  /\ (1 <= length (written x) <= 3)%nat
  /\ ((1 < length (written x))%nat ->
      query r "user" = "" /\ query r "pub" = "" /\ query r "status" = ""
      /\ exists a b, strings_Split (query r "count") ":" = [a; b]
           /\ (snd (strconv_Atoi a) <> None \/ snd (strconv_Atoi b) <> None)).
Proof.
  intros x. subst x.
  assert (Hbranch : forall c op,
             SearchLicenses r = bind (invoke c op) renderFound ->
             (length (calls (serve (SearchLicenses r) s)) <= 1)%nat
             /\ (1 <= length (written (serve (SearchLicenses r) s)) <= 3)%nat
             /\ ((1 < length (written (serve (SearchLicenses r) s)))%nat -> False)).
  { intros c op E. rewrite E. destruct (search_branch c op s) as [Hc Hw].
    rewrite Hc, Hw. simpl. lia. }
  assert (Hlift : forall P : Prop,
             (length (calls (serve (SearchLicenses r) s)) <= 1)%nat
             /\ (1 <= length (written (serve (SearchLicenses r) s)) <= 3)%nat
             /\ ((1 < length (written (serve (SearchLicenses r) s)))%nat -> False) ->
             (length (calls (serve (SearchLicenses r) s)) <= 1)%nat
             /\ (1 <= length (written (serve (SearchLicenses r) s)) <= 3)%nat
             /\ ((1 < length (written (serve (SearchLicenses r) s)))%nat -> P)).
  { intros P (A & B & C). repeat split; try tauto; try lia. }
  destruct (String.eqb_spec (query r "user") "") as [Hu | Hu].
  2:{ apply Hlift, (Hbranch (CallFindByUser (query r "user"))
                      (FindByUser (query r "user"))).
      unfold SearchLicenses. rewrite (nonEmpty_true _ Hu). reflexivity. }
  destruct (String.eqb_spec (query r "pub") "") as [Hp | Hp].
  2:{ apply Hlift, (Hbranch (CallFindByPublication (query r "pub"))
                      (FindByPublication (query r "pub"))).
      unfold SearchLicenses. rewrite Hu, (nonEmpty_true _ Hp). reflexivity. }
  destruct (String.eqb_spec (query r "status") "") as [Hs | Hs].
  2:{ apply Hlift, (Hbranch (CallFindByStatus (query r "status"))
                      (FindByStatus (query r "status"))).
      unfold SearchLicenses. rewrite Hu, Hp, (nonEmpty_true _ Hs). reflexivity. }
  destruct (String.eqb_spec (query r "count") "") as [Hc | Hc].
  { apply Hlift. unfold SearchLicenses. rewrite Hu, Hp, Hs, Hc. simpl. lia. }
  destruct (strings_Split (query r "count") ":") as [| a [| b [| c0 rest]]] eqn:Hsplit.
  - apply Hlift. unfold SearchLicenses.
    rewrite Hu, Hp, Hs, (nonEmpty_true _ Hc), Hsplit. simpl. lia.
  - apply Hlift. unfold SearchLicenses.
    rewrite Hu, Hp, Hs, (nonEmpty_true _ Hc), Hsplit. simpl. lia.
  - destruct (SearchLicenses_count_two_parts r s a b Hu Hp Hs Hc Hsplit) as [Hcs Hws].
    rewrite Hcs, Hws.
    destruct (snd (strconv_Atoi a)) as [ea |] eqn:Ea,
             (snd (strconv_Atoi b)) as [eb |] eqn:Eb;
      simpl; (split; [lia | split; [lia |]]); intros Hmany;
      try (exfalso; lia);
      (split; [exact Hu | split; [exact Hp | split; [exact Hs |]]]);
      exists a, b; (split; [reflexivity |]); rewrite ?Ea, ?Eb;
      first [left; discriminate | right; discriminate].
  - apply Hlift. unfold SearchLicenses.
    rewrite Hu, Hp, Hs, (nonEmpty_true _ Hc), Hsplit. simpl. lia.
Qed.

End LicenseHandlerProperties.

Section RecordHandlerProperties.
Context {S : Type} `{LicenseRepository S} `{Platform} (Cfg : Config).

Lemma set_Status_same (l : LicenseInfo) : set_Status (Status l) l = l.
Proof. destruct l; reflexivity. Qed.

Lemma set_MaxEnd_same (l : LicenseInfo) : set_MaxEnd (MaxEnd l) l = l.
Proof. destruct l; reflexivity. Qed.

(** The record [CreateLicense] passes to [Create], in closed form: the
    payload with its status overwritten and its [MaxEnd] defaulted. *)
Lemma CreateLicense_passes r s payload :
  render_Bind r = Ok payload ->
  calls (serve (CreateLicense Cfg r) s) =
  [CallCreate
     (set_MaxEnd
        match End payload, MaxEnd payload with
        | Some e, None => Some (AddDate e 0 0 (RenewMaxDays Cfg))
        | _, received => received
        end
        (set_Status STATUS_READY payload))].
Proof.
  intros Hb. unfold CreateLicense. rewrite Hb. run_handler.
  match goal with
  | |- context [Create ?l0 s] => destruct (Create l0 s) as [[l err] s']
  end.
  assert (Hcalls : forall l0 l1 : LicenseInfo,
             l0 = l1 -> [CallCreate l0] = [CallCreate l1]) by (intros; subst; reflexivity).
  assert (Heq :
    match End (if negb (String.eqb (Status payload) STATUS_READY)
               then set_Status STATUS_READY payload else payload),
          MaxEnd (if negb (String.eqb (Status payload) STATUS_READY)
                  then set_Status STATUS_READY payload else payload) with
    | Some e, None =>
        set_MaxEnd (Some (AddDate e 0 0 (RenewMaxDays Cfg)))
          (if negb (String.eqb (Status payload) STATUS_READY)
           then set_Status STATUS_READY payload else payload)
    | _, _ => if negb (String.eqb (Status payload) STATUS_READY)
              then set_Status STATUS_READY payload else payload
    end
    = set_MaxEnd
        match End payload, MaxEnd payload with
        | Some e, None => Some (AddDate e 0 0 (RenewMaxDays Cfg))
        | _, received => received
        end
        (set_Status STATUS_READY payload)).
  { assert (Hst : (if negb (String.eqb (Status payload) STATUS_READY)
                   then set_Status STATUS_READY payload else payload)
                  = set_Status STATUS_READY payload).
    { destruct (String.eqb_spec (Status payload) STATUS_READY) as [E | E]; simpl.
      - rewrite <- E. symmetry. apply set_Status_same.
      - reflexivity. }
    rewrite Hst. cbn [End MaxEnd set_Status].
    destruct (End payload) as [e |] eqn:He, (MaxEnd payload) as [m |] eqn:Hm;
      try reflexivity;
      rewrite <- (set_MaxEnd_same (set_Status STATUS_READY payload)) at 1;
      cbn [MaxEnd set_Status]; rewrite Hm; reflexivity. }
  destruct err; simpl; apply Hcalls; exact Heq.
Qed.

(** X5. Every license handler other than [SearchLicenses] writes exactly
    one response, whatever the request and the repository do. *)
Theorem one_response_per_request (r : Request) (s : S) :
  length (written (serve (ListLicenses r) s)) = 1%nat
  /\ length (written (serve (CreateLicense Cfg r) s)) = 1%nat
  /\ length (written (serve (GetLicense r) s)) = 1%nat
  /\ length (written (serve (UpdateLicense r) s)) = 1%nat
  /\ length (written (serve (DeleteLicense r) s)) = 1%nat.
Proof.
  split; [| split; [| split; [| split]]].
  - destruct (search_branch CallListAll ListAll s) as [_ Hw].
    change (length (written (serve (bind (invoke CallListAll ListAll) renderFound) s))
            = 1%nat).
    rewrite Hw. reflexivity.
  - destruct (render_Bind r) as [payload | e] eqn:Hb.
    + destruct (CreateLicense_bound Cfg r s payload Hb) as (l & _ & _ & _ & Hw).
      rewrite Hw. destruct (snd (fst (Create l s))); reflexivity.
    + destruct (CreateLicense_unbound Cfg r s e Hb) as [_ Hw].
      rewrite Hw. reflexivity.
  - pose proof (GetLicense_run r s) as HG. cbv zeta in HG.
    destruct (nonEmpty (urlParam r "licenseID")); destruct HG as [_ Hw]; rewrite Hw.
    + destruct (fst (Get (urlParam r "licenseID") s)); reflexivity.
    + reflexivity.
  - pose proof (UpdateLicense_stopped r s) as HU. cbv zeta in HU.
    destruct (render_Bind r) as [payload | e] eqn:Hb.
    + destruct (nonEmpty (urlParam r "licenseID")) eqn:Hne.
      * destruct (Get (urlParam r "licenseID") s) as [[cur | e1] s1] eqn:Hg.
        -- destruct (UpdateLicense_found r s payload cur s1 Hb Hne Hg) as [_ Hw].
           rewrite Hw.
           match goal with
           | |- context [Update ?l0 s1] => destruct (snd (fst (Update l0 s1)))
           end; reflexivity.
        -- destruct (HU e1 s1 eq_refl) as [_ Hw]. rewrite Hw. reflexivity.
      * destruct HU as [_ Hw]. rewrite Hw. reflexivity.
    + destruct HU as [_ Hw]. rewrite Hw. reflexivity.
  - pose proof (DeleteLicense_run r s) as HD. cbv zeta in HD.
    destruct (nonEmpty (urlParam r "licenseID")).
    + destruct (Get (urlParam r "licenseID") s) as [[cur | e1] s1].
      * destruct HD as [_ Hw]. rewrite Hw.
        destruct (snd (fst (Delete cur s1))); reflexivity.
      * destruct HD as [_ Hw]. rewrite Hw. reflexivity.
    + destruct HD as [_ Hw]. rewrite Hw. reflexivity.
Qed.

(** X6. A payload that [render.Bind] rejects never reaches the
    repository: [CreateLicense] and [UpdateLicense] make no call, not even
    the [Get] of the addressed license, and answer with the
    invalid-request error carrying the bind error. *)
Theorem rejected_payload_never_reaches_store (r : Request) (s : S) (e : error) :
  render_Bind r = Err e ->
  (calls (serve (CreateLicense Cfg r) s) = []
   /\ written (serve (CreateLicense Cfg r) s) = [ErrInvalidRequest e])
  /\ (calls (serve (UpdateLicense r) s) = []
      /\ written (serve (UpdateLicense r) s) = [ErrInvalidRequest e]).
Proof.
  intros Hb. split.
  - exact (CreateLicense_unbound Cfg r s e Hb).
  - pose proof (UpdateLicense_stopped r s) as HU. cbv zeta in HU.
    rewrite Hb in HU. exact HU.
Qed.

(** X7. A bound creation request makes exactly one [Create].  When the
    repository reports an error the answer is [ErrRender] with that error;
    otherwise it is 201 Created with the record as [Create] left it. *)
Theorem CreateLicense_outcome (r : Request) (s : S) (payload : LicenseInfo) :
  render_Bind r = Ok payload ->
  exists l,
    calls (serve (CreateLicense Cfg r) s) = [CallCreate l]
    /\ (forall e, snd (fst (Create l s)) = Some e ->
          written (serve (CreateLicense Cfg r) s) = [ErrRender e])
    /\ (snd (fst (Create l s)) = None ->
          written (serve (CreateLicense Cfg r) s) =
          [LicenseInfoResponse StatusCreated (fst (fst (Create l s)))]).
Proof.
  intros Hb.
  destruct (CreateLicense_bound Cfg r s payload Hb) as (l & Hc & _ & _ & Hw).
  exists l. split; [exact Hc |].
  split; [intros e He | intros He]; rewrite Hw, He; reflexivity.
Qed.

(** X8. Apart from [Status] and [MaxEnd], the record [CreateLicense]
    passes to [Create] is the payload: identifier, dates, publication,
    user, validity window and device counters go through untouched. *)
Theorem CreateLicense_keeps_other_fields (r : Request) (s : S) (payload : LicenseInfo) :
  render_Bind r = Ok payload ->
  exists l,
    calls (serve (CreateLicense Cfg r) s) = [CallCreate l]
    /\ ID l = ID payload
    /\ CreatedAt l = CreatedAt payload
    /\ UpdatedAt l = UpdatedAt payload
    /\ PublicationID l = PublicationID payload
    /\ UserID l = UserID payload
    /\ Start l = Start payload
    /\ End l = End payload
    /\ DeviceMax l = DeviceMax payload
    /\ DeviceCount l = DeviceCount payload.
Proof.
  intros Hb. eexists. split; [exact (CreateLicense_passes r s payload Hb) |].
  cbn. repeat split.
Qed.

(** X9. Every record [CreateLicense] passes to [Create] with an [End]
    also has a [MaxEnd]. *)
Theorem CreateLicense_End_has_MaxEnd (r : Request) (s : S) (l : LicenseInfo) :
  In (CallCreate l) (calls (serve (CreateLicense Cfg r) s)) ->
  End l <> None -> MaxEnd l <> None.
Proof.
  intros Hin.
  destruct (render_Bind r) as [payload | e] eqn:Hb.
  - rewrite (CreateLicense_passes r s payload Hb) in Hin. only_call Hin.
    cbn. destruct (End payload), (MaxEnd payload); congruence.
  - destruct (CreateLicense_unbound Cfg r s e Hb) as [Hc _].
    rewrite Hc in Hin. destruct Hin.
Qed.

(** X10. With [RenewMaxDays] at zero, on a calendar where adding zero
    days changes nothing, a payload with an [End] and no [MaxEnd] is
    created with [MaxEnd] equal to its [End]. *)
Theorem CreateLicense_zero_RenewMaxDays
    (r : Request) (s : S) (payload : LicenseInfo) (e : Time) :
  RenewMaxDays Cfg = 0 ->
  (forall t, AddDate t 0 0 0 = t) ->
  render_Bind r = Ok payload ->
  End payload = Some e -> MaxEnd payload = None ->
  exists l,
    calls (serve (CreateLicense Cfg r) s) = [CallCreate l]
    /\ End l = Some e /\ MaxEnd l = Some e.
Proof.
  intros Hz Hadd Hb He Hm.
  eexists. split; [exact (CreateLicense_passes r s payload Hb) |].
  cbn. rewrite He, Hm, Hz, Hadd. split; reflexivity.
Qed.

End RecordHandlerProperties.

Section AddressedRecordProperties.
Context {S : Type} `{LicenseRepository S} `{Platform}.

(** X11. When [UpdateLicense] finds the addressed record, the record it
    passes to [Update] takes every field but [ID] and [CreatedAt] from
    the payload: publication, user, validity window, [MaxEnd] and the
    device counters of the stored record are not consulted. *)
Theorem UpdateLicense_takes_payload_fields
    (r : Request) (s s1 : S) (payload currentLic : LicenseInfo) :
  render_Bind r = Ok payload ->
  urlParam r "licenseID" <> "" ->
  Get (urlParam r "licenseID") s = (Ok currentLic, s1) ->
  exists l,
    calls (serve (UpdateLicense r) s) = [CallGet (urlParam r "licenseID"); CallUpdate l]
    /\ PublicationID l = PublicationID payload
    /\ UserID l = UserID payload
    /\ Start l = Start payload
    /\ End l = End payload
    /\ MaxEnd l = MaxEnd payload
    /\ DeviceMax l = DeviceMax payload
    /\ DeviceCount l = DeviceCount payload.
Proof.
  intros Hb Hid Hg.
  destruct (UpdateLicense_found r s payload currentLic s1 Hb
              (nonEmpty_true _ Hid) Hg) as [Hc _].
  eexists. split; [exact Hc |]. cbn. repeat split.
Qed.

(** X12. When [UpdateLicense] finds the addressed record, [Update] runs
    on the repository as [Get] left it.  When it reports an error the
    answer is [ErrRender] with that error; otherwise it is a 200 response
    with the record as [Update] left it. *)
Theorem UpdateLicense_outcome
    (r : Request) (s s1 : S) (payload currentLic : LicenseInfo) :
  render_Bind r = Ok payload ->
  urlParam r "licenseID" <> "" ->
  Get (urlParam r "licenseID") s = (Ok currentLic, s1) ->
  exists l,
    calls (serve (UpdateLicense r) s) = [CallGet (urlParam r "licenseID"); CallUpdate l]
    /\ (forall e, snd (fst (Update l s1)) = Some e ->
          written (serve (UpdateLicense r) s) = [ErrRender e])
    /\ (snd (fst (Update l s1)) = None ->
          written (serve (UpdateLicense r) s) =
          [LicenseInfoResponse StatusOK (fst (fst (Update l s1)))]).
Proof.
  intros Hb Hid Hg.
  destruct (UpdateLicense_found r s payload currentLic s1 Hb
              (nonEmpty_true _ Hid) Hg) as [Hc Hw].
  eexists. split; [exact Hc |].
  split; [intros e He | intros He]; rewrite Hw, He; reflexivity.
Qed.

(** X13. Without a license identifier in the URL no handler touches the
    repository, but the answers differ: [GetLicense] reports an invalid
    request, [DeleteLicense] and, on a bound payload, [UpdateLicense]
    report [ErrNotFound]. *)
Theorem missing_license_identifier (r : Request) (s : S) :
  urlParam r "licenseID" = "" ->
  (calls (serve (GetLicense r) s) = []
   /\ written (serve (GetLicense r) s) =
      [ErrInvalidRequest (Errorf "missing required license identifier")])
  /\ (calls (serve (DeleteLicense r) s) = []
      /\ written (serve (DeleteLicense r) s) = [ErrNotFound])
  /\ (forall payload, render_Bind r = Ok payload ->
      calls (serve (UpdateLicense r) s) = []
      /\ written (serve (UpdateLicense r) s) = [ErrNotFound]).
Proof.
  intros Hid.
  pose proof (GetLicense_run r s) as HG.
  pose proof (DeleteLicense_run r s) as HD.
  pose proof (UpdateLicense_stopped r s) as HU.
  cbv zeta in HG, HD, HU. rewrite Hid in HG, HD, HU.
  split; [exact HG | split; [exact HD |]].
  intros payload Hb. rewrite Hb in HU. exact HU.
Qed.

(** X14. When [GetLicense] finds the addressed record, its one
    repository call is that [Get] and its one response is a 200 with
    exactly the record [Get] returned. *)
Theorem GetLicense_returns_stored (r : Request) (s s1 : S) (license : LicenseInfo) :
  urlParam r "licenseID" <> "" ->
  Get (urlParam r "licenseID") s = (Ok license, s1) ->
  calls (serve (GetLicense r) s) = [CallGet (urlParam r "licenseID")]
  /\ written (serve (GetLicense r) s) = [LicenseInfoResponse StatusOK license].
Proof.
  intros Hid Hg.
  pose proof (GetLicense_run r s) as HG. cbv zeta in HG.
  rewrite (nonEmpty_true _ Hid), Hg in HG. exact HG.
Qed.

(** X15. When [DeleteLicense] finds the addressed record it passes
    exactly the record [Get] returned to [Delete], on the repository as
    [Get] left it.  A [Delete] error is answered as an invalid request;
    otherwise the answer is a 200 with the deleted record. *)
Theorem DeleteLicense_outcome (r : Request) (s s1 : S) (license : LicenseInfo) :
  urlParam r "licenseID" <> "" ->
  Get (urlParam r "licenseID") s = (Ok license, s1) ->
  calls (serve (DeleteLicense r) s)
  = [CallGet (urlParam r "licenseID"); CallDelete license]
  /\ (forall e, snd (fst (Delete license s1)) = Some e ->
        written (serve (DeleteLicense r) s) = [ErrInvalidRequest e])
  /\ (snd (fst (Delete license s1)) = None ->
        written (serve (DeleteLicense r) s) =
        [LicenseInfoResponse StatusOK (fst (fst (Delete license s1)))]).
Proof.
  intros Hid Hg.
  pose proof (DeleteLicense_run r s) as HD. cbv zeta in HD.
  rewrite (nonEmpty_true _ Hid), Hg in HD. destruct HD as [Hc Hw].
  split; [exact Hc |].
  split; [intros e He | intros He]; rewrite Hw, He; reflexivity.
Qed.

(** X16. Which repository methods a handler can reach: [GetLicense] only
    [Get]; [DeleteLicense] only [Get] and [Delete]; [UpdateLicense] only
    [Get] and [Update]; and a [Delete] or an [Update] is always preceded
    by the [Get] of the addressed license. *)
Theorem handlers_store_footprint (r : Request) (s : S) :
  let id := urlParam r "licenseID" in
  (calls (serve (GetLicense r) s) = [] \/ calls (serve (GetLicense r) s) = [CallGet id])
  /\ (calls (serve (DeleteLicense r) s) = []
      \/ calls (serve (DeleteLicense r) s) = [CallGet id]
      \/ exists l, calls (serve (DeleteLicense r) s) = [CallGet id; CallDelete l])
  /\ (calls (serve (UpdateLicense r) s) = []
      \/ calls (serve (UpdateLicense r) s) = [CallGet id]
      \/ exists l, calls (serve (UpdateLicense r) s) = [CallGet id; CallUpdate l]).
Proof.
  intros id. subst id.
  pose proof (GetLicense_run r s) as HG.
  pose proof (DeleteLicense_run r s) as HD.
  pose proof (UpdateLicense_stopped r s) as HU.
  cbv zeta in HG, HD, HU.
  split; [| split].
  - destruct (nonEmpty (urlParam r "licenseID")); destruct HG as [Hc _]; auto.
  - destruct (nonEmpty (urlParam r "licenseID")).
    + destruct (Get (urlParam r "licenseID") s) as [[cur | e1] s1];
        destruct HD as [Hc _]; eauto.
    + destruct HD as [Hc _]; auto.
  - destruct (render_Bind r) as [payload | e] eqn:Hb.
    + destruct (nonEmpty (urlParam r "licenseID")) eqn:Hne.
      * destruct (Get (urlParam r "licenseID") s) as [[cur | e1] s1] eqn:Hg.
        -- destruct (UpdateLicense_found r s payload cur s1 Hb Hne Hg) as [Hc _].
           right. right. eexists. exact Hc.
        -- destruct (HU e1 s1 eq_refl) as [Hc _]. auto.
      * destruct HU as [Hc _]. auto.
    + destruct HU as [Hc _]. auto.
Qed.

End AddressedRecordProperties.

(** * Properties of the publication handlers *)

Module PublicationProperties.
Import pubstor pubapi mempub.

(** Unfold one publication handler run. *)
Ltac run_pub :=
  unfold serve, renderOne, renderList, bind, invoke, render_Error, render_Status,
    render_Render, Publication_Render, NewPublicationResponse, finished, ret;
  simpl.

Section Shared.
Context {S R : Type} `{PublicationRepository S R}.

Lemma Publication_RenderList_all_ok (ps : list (PublicationInfo R)) :
  fold_left (fun acc p => match acc with
                          | Some e => Some e
                          | None => Publication_Render p
                          end) ps None = None.
Proof. induction ps as [| p ps IH]; simpl; [reflexivity | exact IH]. Qed.

(** [renderList] writes the list and touches nothing else. *)
Lemma renderList_run (ps : list (PublicationInfo R)) (x : Exchange S R) :
  snd (renderList ps x)
  = MkExchange (db x) (calls x)
      (written x ++ [PublicationListResponse (httpStatus x) ps]) (httpStatus x).
Proof.
  unfold renderList, bind, render_RenderList, NewPublicationListResponse,
    NewPublicationResponse.
  rewrite map_id, Publication_RenderList_all_ok. reflexivity.
Qed.

Lemma nonEmpty_iff (v : string) : nonEmpty v = true <-> v <> "".
Proof.
  unfold nonEmpty. destruct (String.eqb_spec v ""); simpl; split; intros; congruence.
Qed.

(** [PublicationPayload.Bind] lets a payload through exactly when it is
    there and has a UUID and a title. *)
Lemma PublicationPayload_Bind_None (p : option (PublicationInfo R)) :
  HandlerCtx.PublicationPayload_Bind p = None <->
  exists info, p = Some info /\ UUID info <> "" /\ Title info <> "".
Proof.
  unfold HandlerCtx.PublicationPayload_Bind. destruct p as [info |].
  - destruct (String.eqb_spec (UUID info) "") as [Eu | Eu];
      [| destruct (String.eqb_spec (Title info) "") as [Et | Et]].
    + split; [discriminate |]. intros (i & [= <-] & Hu & _). contradiction.
    + split; [discriminate |]. intros (i & [= <-] & _ & Ht). contradiction.
    + split; [| reflexivity]. intros _. exists info. auto.
  - split; [discriminate |]. intros (i & Hi & _). discriminate Hi.
Qed.

(** X17. [PublicationPayload.Bind] accepts a payload exactly when it is
    present with a non-empty UUID and a non-empty title, and otherwise
    names the first thing missing, in the order payload, UUID, title. *)
Theorem PublicationPayload_Bind_requires (p : option (PublicationInfo R)) :
  (HandlerCtx.PublicationPayload_Bind p = None <->
     exists info, p = Some info /\ UUID info <> "" /\ Title info <> "")
  /\ (p = None ->
      HandlerCtx.PublicationPayload_Bind p
      = Some (Errorf "missing required Publication payload"))
  /\ (forall info, p = Some info -> UUID info = "" ->
      HandlerCtx.PublicationPayload_Bind p = Some (Errorf "missing required UUID"))
  /\ (forall info, p = Some info -> UUID info <> "" -> Title info = "" ->
      HandlerCtx.PublicationPayload_Bind p = Some (Errorf "missing required Title")).
Proof.
  split; [apply PublicationPayload_Bind_None |].
  split; [intros ->; reflexivity |].
  split.
  - intros info -> Hu. simpl. rewrite Hu. reflexivity.
  - intros info -> Hu Ht. simpl.
    destruct (String.eqb_spec (UUID info) ""); [contradiction |].
    rewrite Ht. reflexivity.
Qed.

(** X18. [ListPublications] makes the one call [ListAll] and answers
    with the publications as the repository returned them, in a 200 list
    response, or with [ErrRender] carrying the repository's error. *)
Theorem ListPublications_answers_with_all {B} (r : Request B) (s : S) :
  calls (serve (ListPublications r) s) = [CallListAll]
  /\ written (serve (ListPublications r) s) =
     [match fst (ListAll s) with
      | Err e => ErrRender e
      | Ok publications => PublicationListResponse StatusOK publications
      end].
Proof.
  unfold serve, ListPublications, bind, invoke. cbn [db calls written httpStatus].
  destruct (ListAll s) as [[ps | e] s1]; cbn [fst].
  - rewrite renderList_run. split; reflexivity.
  - split; reflexivity.
Qed.

(** [SearchPublications] on a format the switch knows. *)
Lemma SearchPublications_known {B} (r : Request B) (s : S) (ct : string) :
  In (query r "format", ct)
     [("epub", "application/epub+zip"); ("lcpdf", "application/pdf+lcp");
      ("lcpau", "application/audiobook+lcp"); ("lcpdi", "application/divina+lcp")] ->
  calls (serve (SearchPublications r) s) = [CallFindByType ct]
  /\ written (serve (SearchPublications r) s) =
     [match fst (FindByType ct s) with
      | Err _ => ErrNotFound
      | Ok publications => PublicationListResponse StatusOK publications
      end].
Proof.
  intros Hin. unfold serve, SearchPublications.
  destruct Hin as [E | [E | [E | [E | []]]]]; injection E as Ef <-; rewrite <- Ef;
    cbn [nonEmpty String.eqb Ascii.eqb Bool.eqb negb];
    unfold bind, invoke; cbn [db calls written httpStatus];
    match goal with
    | |- context [FindByType ?c s] => destruct (FindByType c s) as [[ps | e] s1]
    end; cbn [fst]; rewrite ?renderList_run; split; reflexivity.
Qed.

(** [SearchPublications] on any other format. *)
Lemma SearchPublications_unknown {B} (r : Request B) (s : S) :
  query r "format" <> "epub" -> query r "format" <> "lcpdf" ->
  query r "format" <> "lcpau" -> query r "format" <> "lcpdi" ->
  calls (serve (SearchPublications r) s) = []
  /\ written (serve (SearchPublications r) s) = [ErrNotFound].
Proof.
  intros H1 H2 H3 H4. unfold serve, SearchPublications.
  destruct (nonEmpty (query r "format")); [| split; reflexivity].
  destruct (String.eqb_spec (query r "format") "epub"); [contradiction |].
  destruct (String.eqb_spec (query r "format") "lcpdf"); [contradiction |].
  destruct (String.eqb_spec (query r "format") "lcpau"); [contradiction |].
  destruct (String.eqb_spec (query r "format") "lcpdi"); [contradiction |].
  split; reflexivity.
Qed.

(** X19. [SearchPublications] knows four formats, [epub], [lcpdf],
    [lcpau] and [lcpdi]: for each it queries [FindByType] once with the
    matching content type and answers with the list found, or with
    [ErrNotFound] when the repository fails.  For any other value of
    [format], empty included, it makes no repository call and answers
    [ErrNotFound]. *)
Theorem SearchPublications_by_format {B} (r : Request B) (s : S) :
  (forall ct,
     In (query r "format", ct)
        [("epub", "application/epub+zip"); ("lcpdf", "application/pdf+lcp");
         ("lcpau", "application/audiobook+lcp"); ("lcpdi", "application/divina+lcp")] ->
     calls (serve (SearchPublications r) s) = [CallFindByType ct]
     /\ written (serve (SearchPublications r) s) =
        [match fst (FindByType ct s) with
         | Err _ => ErrNotFound
         | Ok publications => PublicationListResponse StatusOK publications
         end])
  /\ (query r "format" <> "epub" -> query r "format" <> "lcpdf" ->
      query r "format" <> "lcpau" -> query r "format" <> "lcpdi" ->
      calls (serve (SearchPublications r) s) = []
      /\ written (serve (SearchPublications r) s) = [ErrNotFound]).
Proof.
  split.
  - intros ct. apply SearchPublications_known.
  - apply SearchPublications_unknown.
Qed.

(** X20. [SearchPublications] never answers with [ErrRender] or with an
    invalid-request error: its one response is a 200 list or
    [ErrNotFound], and it makes at most one repository call. *)
Theorem SearchPublications_answers {B} (r : Request B) (s : S) :
  (length (calls (serve (SearchPublications r) s)) <= 1)%nat
  /\ exists v, written (serve (SearchPublications r) s) = [v]
       /\ (v = ErrNotFound \/ exists ps, v = PublicationListResponse StatusOK ps).
Proof.
  assert (Hk : forall ct,
             query r "format" = fst ct ->
             In ct [("epub", "application/epub+zip"); ("lcpdf", "application/pdf+lcp");
                    ("lcpau", "application/audiobook+lcp");
                    ("lcpdi", "application/divina+lcp")] ->
             (length (calls (serve (SearchPublications r) s)) <= 1)%nat
             /\ exists v, written (serve (SearchPublications r) s) = [v]
                  /\ (v = ErrNotFound \/ exists ps, v = PublicationListResponse StatusOK ps)).
  { intros [f ct] Hf Hin. simpl in Hf. subst f.
    destruct (SearchPublications_known r s ct Hin) as [Hc Hw].
    rewrite Hc, Hw. split; [simpl; lia |].
    eexists. split; [reflexivity |].
    destruct (fst (FindByType ct s)); eauto. }
  destruct (String.eqb_spec (query r "format") "epub") as [E1 | E1];
    [apply (Hk ("epub", "application/epub+zip") E1); simpl; auto |].
  destruct (String.eqb_spec (query r "format") "lcpdf") as [E2 | E2];
    [apply (Hk ("lcpdf", "application/pdf+lcp") E2); simpl; auto |].
  destruct (String.eqb_spec (query r "format") "lcpau") as [E3 | E3];
    [apply (Hk ("lcpau", "application/audiobook+lcp") E3); simpl; auto |].
  destruct (String.eqb_spec (query r "format") "lcpdi") as [E4 | E4];
    [apply (Hk ("lcpdi", "application/divina+lcp") E4); simpl; auto |].
  destruct (SearchPublications_unknown r s E1 E2 E3 E4) as [Hc Hw].
  rewrite Hc, Hw. split; [simpl; lia |]. eexists. split; [reflexivity | auto].
Qed.

End Shared.

Section Generations.
Context {S R : Type} `{PublicationRepository S R} `{PublicationValidator R}.

(** [renderOne] writes the publication and touches nothing else. *)
Lemma renderOne_run (p : PublicationInfo R) (x : Exchange S R) :
  snd (renderOne p x)
  = MkExchange (db x) (calls x)
      (written x ++ [PublicationResponse (httpStatus x) p]) (httpStatus x).
Proof. reflexivity. Qed.

(** What passes the bind of the [HandlerCtx] handlers. *)
Lemma HandlerCtx_bound (r : Request (option (PublicationInfo R)))
    (data : option (PublicationInfo R)) :
  HandlerCtx.render_Bind r = Ok data ->
  exists info, data = Some info /\ UUID info <> "" /\ Title info <> "".
Proof.
  unfold HandlerCtx.render_Bind.
  destruct (body r) as [d | e]; [| discriminate].
  destruct (HandlerCtx.PublicationPayload_Bind d) eqn:Hb; [discriminate |].
  intros [= <-]. apply PublicationPayload_Bind_None. exact Hb.
Qed.

(** [CreatePublication] of either generation once the payload is bound;
    they differ by the status of the success response only. *)
Lemma HandlerCtx_Create_bound (r : Request (option (PublicationInfo R))) (s : S)
    (p : PublicationInfo R) :
  HandlerCtx.render_Bind r = Ok (Some p) ->
  calls (serve (HandlerCtx.CreatePublication r) s) = [CallCreate p]
  /\ written (serve (HandlerCtx.CreatePublication r) s) =
     match snd (fst (Create p s)) with
     | Some e => [ErrRender e]
     | None => [PublicationResponse StatusOK (fst (fst (Create p s)))]
     end.
Proof.
  intros Hb. unfold HandlerCtx.CreatePublication. rewrite Hb. run_pub.
  destruct (Create p s) as [[p' err] s1]; simpl. destruct err; auto.
Qed.

Lemma APIHandler_Create_bound (r : Request (PublicationInfo R)) (s : S)
    (p : PublicationInfo R) :
  APIHandler.render_Bind r = Ok p ->
  calls (serve (APIHandler.CreatePublication r) s) = [CallCreate p]
  /\ written (serve (APIHandler.CreatePublication r) s) =
     match snd (fst (Create p s)) with
     | Some e => [ErrRender e]
     | None => [PublicationResponse StatusCreated (fst (fst (Create p s)))]
     end.
Proof.
  intros Hb. unfold APIHandler.CreatePublication. rewrite Hb. run_pub.
  destruct (Create p s) as [[p' err] s1]; simpl. destruct err; auto.
Qed.

(** [UpdatePublication] of either generation when the repository knows
    the publication. *)
Lemma HandlerCtx_Update_found (r : Request (option (PublicationInfo R))) (s s1 : S)
    (p currentPub : PublicationInfo R) :
  HandlerCtx.render_Bind r = Ok (Some p) ->
  nonEmpty (urlParam r "publicationID") = true ->
  Get (urlParam r "publicationID") s = (Ok currentPub, s1) ->
  let p' := MkPublicationInfo (ID currentPub) (CreatedAt currentPub)
              (UpdatedAt currentPub) (DeletedAt currentPub)
              (UUID p) (Title p) (Rest p) in
  calls (serve (HandlerCtx.UpdatePublication r) s)
  = [CallGet (urlParam r "publicationID"); CallUpdate p']
  /\ written (serve (HandlerCtx.UpdatePublication r) s) =
     match snd (fst (Update p' s1)) with
     | Some e => [ErrRender e]
     | None => [PublicationResponse StatusOK (fst (fst (Update p' s1)))]
     end.
Proof.
  intros Hb Hid Hg p'. subst p'. unfold HandlerCtx.UpdatePublication.
  rewrite Hb, Hid. run_pub. rewrite Hg.
  unfold set_DeletedAt, set_UpdatedAt, set_CreatedAt, set_ID. simpl.
  match goal with
  | |- context [Update ?q s1] => destruct (Update q s1) as [[q' err] s2]
  end.
  simpl. destruct err; split; reflexivity.
Qed.

Lemma APIHandler_Update_found (r : Request (PublicationInfo R)) (s s1 : S)
    (p currentPub : PublicationInfo R) :
  APIHandler.render_Bind r = Ok p ->
  nonEmpty (urlParam r "publicationID") = true ->
  Get (urlParam r "publicationID") s = (Ok currentPub, s1) ->
  let p' := MkPublicationInfo (ID currentPub) (CreatedAt currentPub)
              (UpdatedAt p) (DeletedAt p) (UUID p) (Title p) (Rest p) in
  calls (serve (APIHandler.UpdatePublication r) s)
  = [CallGet (urlParam r "publicationID"); CallUpdate p']
  /\ written (serve (APIHandler.UpdatePublication r) s) =
     match snd (fst (Update p' s1)) with
     | Some e => [ErrRender e]
     | None => [PublicationResponse StatusOK (fst (fst (Update p' s1)))]
     end.
Proof.
  intros Hb Hid Hg p'. subst p'. unfold APIHandler.UpdatePublication.
  rewrite Hb, Hid. run_pub. rewrite Hg.
  unfold set_DeletedAt, set_UpdatedAt, set_CreatedAt, set_ID. simpl.
  match goal with
  | |- context [Update ?q s1] => destruct (Update q s1) as [[q' err] s2]
  end.
  simpl. destruct err; split; reflexivity.
Qed.

(** The [HandlerCtx] update makes no [Update] in any other case. *)
Lemma HandlerCtx_Update_calls (r : Request (option (PublicationInfo R))) (s : S)
    (q : PublicationInfo R) :
  In (CallUpdate q) (calls (serve (HandlerCtx.UpdatePublication r) s)) ->
  exists p currentPub s1,
    HandlerCtx.render_Bind r = Ok (Some p)
    /\ nonEmpty (urlParam r "publicationID") = true
    /\ Get (urlParam r "publicationID") s = (Ok currentPub, s1).
Proof.
  unfold HandlerCtx.UpdatePublication.
  destruct (HandlerCtx.render_Bind r) as [[p |] | e] eqn:Hb;
    [| intros [] | intros []].
  destruct (nonEmpty (urlParam r "publicationID")) eqn:Hid; [| intros []].
  destruct (Get (urlParam r "publicationID") s) as [[cur | e] s1] eqn:Hg.
  - intros _. exists p, cur, s1. auto.
  - run_pub. rewrite Hg. simpl. intros [E | []]. discriminate E.
Qed.

(** X21. Every publication the [HandlerCtx] handlers pass to [Create] or
    to [Update] has a non-empty UUID and a non-empty title. *)
Theorem HandlerCtx_stores_identified
    (r : Request (option (PublicationInfo R))) (s : S) (q : PublicationInfo R) :
  In (CallCreate q) (calls (serve (HandlerCtx.CreatePublication r) s))
  \/ In (CallUpdate q) (calls (serve (HandlerCtx.UpdatePublication r) s)) ->
  UUID q <> "" /\ Title q <> "".
Proof.
  intros [Hin | Hin].
  - destruct (HandlerCtx.render_Bind r) as [[p |] | e] eqn:Hb.
    + destruct (HandlerCtx_Create_bound r s p Hb) as [Hc _].
      rewrite Hc in Hin. destruct Hin as [E | []]. injection E as <-.
      destruct (HandlerCtx_bound r (Some p) Hb) as (info & [= <-] & Hu & Ht). auto.
    + unfold HandlerCtx.CreatePublication in Hin. rewrite Hb in Hin. destruct Hin.
    + unfold HandlerCtx.CreatePublication in Hin. rewrite Hb in Hin. destruct Hin.
  - destruct (HandlerCtx_Update_calls r s q Hin) as (p & cur & s1 & Hb & Hid & Hg).
    destruct (HandlerCtx_Update_found r s s1 p cur Hb Hid Hg) as [Hc _].
    rewrite Hc in Hin. destruct Hin as [E | [E | []]]; [discriminate E |].
    injection E as <-.
    destruct (HandlerCtx_bound r (Some p) Hb) as (info & [= <-] & Hu & Ht). auto.
Qed.

(** X22. When the [HandlerCtx] update finds the addressed publication,
    the record it passes to [Update] has the [ID], [CreatedAt],
    [UpdatedAt] and [DeletedAt] of the stored record and every other
    field of the payload. *)
Theorem HandlerCtx_Update_pins_four
    (r : Request (option (PublicationInfo R))) (s s1 : S)
    (p currentPub : PublicationInfo R) :
  HandlerCtx.render_Bind r = Ok (Some p) ->
  urlParam r "publicationID" <> "" ->
  Get (urlParam r "publicationID") s = (Ok currentPub, s1) ->
  exists q,
    calls (serve (HandlerCtx.UpdatePublication r) s)
    = [CallGet (urlParam r "publicationID"); CallUpdate q]
    /\ ID q = ID currentPub /\ CreatedAt q = CreatedAt currentPub
    /\ UpdatedAt q = UpdatedAt currentPub /\ DeletedAt q = DeletedAt currentPub
    /\ UUID q = UUID p /\ Title q = Title p /\ Rest q = Rest p.
Proof.
  intros Hb Hid Hg. apply nonEmpty_iff in Hid.
  destruct (HandlerCtx_Update_found r s s1 p currentPub Hb Hid Hg) as [Hc _].
  eexists. split; [exact Hc |]. cbn. repeat split.
Qed.

(** X23. When the [APIHandler] update finds the addressed publication,
    the record it passes to [Update] has the [ID] and [CreatedAt] of the
    stored record only: [UpdatedAt], [DeletedAt] and every other field
    are the payload's. *)
Theorem APIHandler_Update_pins_two
    (r : Request (PublicationInfo R)) (s s1 : S) (p currentPub : PublicationInfo R) :
  APIHandler.render_Bind r = Ok p ->
  urlParam r "publicationID" <> "" ->
  Get (urlParam r "publicationID") s = (Ok currentPub, s1) ->
  exists q,
    calls (serve (APIHandler.UpdatePublication r) s)
    = [CallGet (urlParam r "publicationID"); CallUpdate q]
    /\ ID q = ID currentPub /\ CreatedAt q = CreatedAt currentPub
    /\ UpdatedAt q = UpdatedAt p /\ DeletedAt q = DeletedAt p
    /\ UUID q = UUID p /\ Title q = Title p /\ Rest q = Rest p.
Proof.
  intros Hb Hid Hg. apply nonEmpty_iff in Hid.
  destruct (APIHandler_Update_found r s s1 p currentPub Hb Hid Hg) as [Hc _].
  eexists. split; [exact Hc |]. cbn. repeat split.
Qed.

(** X24. A bound [CreatePublication] passes the payload itself to
    [Create], once.  On success the [HandlerCtx] handler answers 200 and
    the [APIHandler] one 201 Created, each with the record as [Create]
    left it; a repository error is answered with [ErrRender] by both. *)
Theorem CreatePublication_outcome
    (r0 : Request (option (PublicationInfo R))) (r1 : Request (PublicationInfo R))
    (s : S) (p : PublicationInfo R) :
  (HandlerCtx.render_Bind r0 = Ok (Some p) ->
     calls (serve (HandlerCtx.CreatePublication r0) s) = [CallCreate p]
     /\ (forall e, snd (fst (Create p s)) = Some e ->
           written (serve (HandlerCtx.CreatePublication r0) s) = [ErrRender e])
     /\ (snd (fst (Create p s)) = None ->
           written (serve (HandlerCtx.CreatePublication r0) s)
           = [PublicationResponse StatusOK (fst (fst (Create p s)))]))
  /\ (APIHandler.render_Bind r1 = Ok p ->
     calls (serve (APIHandler.CreatePublication r1) s) = [CallCreate p]
     /\ (forall e, snd (fst (Create p s)) = Some e ->
           written (serve (APIHandler.CreatePublication r1) s) = [ErrRender e])
     /\ (snd (fst (Create p s)) = None ->
           written (serve (APIHandler.CreatePublication r1) s)
           = [PublicationResponse StatusCreated (fst (fst (Create p s)))])).
Proof.
  split; intros Hb.
  - destruct (HandlerCtx_Create_bound r0 s p Hb) as [Hc Hw].
    split; [exact Hc |].
    split; [intros e He | intros He]; rewrite Hw, He; reflexivity.
  - destruct (APIHandler_Create_bound r1 s p Hb) as [Hc Hw].
    split; [exact Hc |].
    split; [intros e He | intros He]; rewrite Hw, He; reflexivity.
Qed.

(** X25. [GetPublication] with an identifier makes the one call [Get]
    and answers 200 with exactly the record found, or [ErrNotFound] when
    [Get] fails, in both generations.  Without an identifier neither
    calls the repository; the [HandlerCtx] handler answers [ErrNotFound]
    and the [APIHandler] one an invalid-request error. *)
Theorem GetPublication_answers
    (r0 : Request (option (PublicationInfo R))) (r1 : Request (PublicationInfo R))
    (s : S) :
  (urlParam r0 "publicationID" <> "" ->
     calls (serve (HandlerCtx.GetPublication r0) s) = [CallGet (urlParam r0 "publicationID")]
     /\ written (serve (HandlerCtx.GetPublication r0) s) =
        [match fst (Get (urlParam r0 "publicationID") s) with
         | Err _ => ErrNotFound
         | Ok p => PublicationResponse StatusOK p
         end])
  /\ (urlParam r1 "publicationID" <> "" ->
     calls (serve (APIHandler.GetPublication r1) s) = [CallGet (urlParam r1 "publicationID")]
     /\ written (serve (APIHandler.GetPublication r1) s) =
        [match fst (Get (urlParam r1 "publicationID") s) with
         | Err _ => ErrNotFound
         | Ok p => PublicationResponse StatusOK p
         end])
  /\ (urlParam r0 "publicationID" = "" ->
     calls (serve (HandlerCtx.GetPublication r0) s) = []
     /\ written (serve (HandlerCtx.GetPublication r0) s) = [ErrNotFound])
  /\ (urlParam r1 "publicationID" = "" ->
     calls (serve (APIHandler.GetPublication r1) s) = []
     /\ written (serve (APIHandler.GetPublication r1) s)
        = [ErrInvalidRequest (Errorf "missing required publication identifier")]).
Proof.
  split; [| split; [| split]].
  - intros Hid. apply nonEmpty_iff in Hid. unfold HandlerCtx.GetPublication.
    rewrite Hid. run_pub.
    destruct (Get (urlParam r0 "publicationID") s) as [[p | e] s1]; simpl; auto.
  - intros Hid. apply nonEmpty_iff in Hid. unfold APIHandler.GetPublication.
    rewrite Hid. run_pub.
    destruct (Get (urlParam r1 "publicationID") s) as [[p | e] s1]; simpl; auto.
  - intros Hid. unfold HandlerCtx.GetPublication. rewrite Hid. auto.
  - intros Hid. unfold APIHandler.GetPublication. rewrite Hid. auto.
Qed.

(** X26. [DeletePublication] first gets the addressed publication.  When
    [Get] fails, or without an identifier, it answers [ErrNotFound] and
    makes no [Delete].  Otherwise it passes exactly the record found to
    [Delete], on the repository as [Get] left it, and answers 200 with
    the deleted record, or an invalid-request error when [Delete]
    fails. *)
Theorem DeletePublication_outcome {B} (r : Request B) (s : S) :
  let id := urlParam r "publicationID" in
  let x := serve (DeletePublication r) s in
  (id = "" -> calls x = [] /\ written x = [ErrNotFound])
  /\ (id <> "" -> forall e s1, Get id s = (Err e, s1) ->
      calls x = [CallGet id] /\ written x = [ErrNotFound])
  /\ (id <> "" -> forall p s1, Get id s = (Ok p, s1) ->
      calls x = [CallGet id; CallDelete p]
      /\ (forall e, snd (fst (Delete p s1)) = Some e ->
            written x = [ErrInvalidRequest e])
      /\ (snd (fst (Delete p s1)) = None ->
            written x = [PublicationResponse StatusOK (fst (fst (Delete p s1)))])).
Proof.
  intros id x. subst id x. unfold DeletePublication.
  split; [| split].
  - intros Hid. rewrite Hid. auto.
  - intros Hid e s1 Hg. apply nonEmpty_iff in Hid. rewrite Hid.
    run_pub. rewrite Hg. auto.
  - intros Hid p s1 Hg. apply nonEmpty_iff in Hid. rewrite Hid.
    run_pub. rewrite Hg. simpl.
    destruct (Delete p s1) as [[p' err] s2]; simpl.
    split; [destruct err; reflexivity |].
    split; [intros e -> | intros ->]; reflexivity.
Qed.

End Generations.

(** ** Concrete runs on the in-memory publication repository *)

Lemma PublicationPayload_Bind_requires_witness :
  HandlerCtx.PublicationPayload_Bind (Some untitled)
  = Some (Errorf "missing required Title").
Proof.
  apply (proj2 (proj2 (proj2 (PublicationPayload_Bind_requires (Some untitled))))
           untitled).
  - reflexivity.
  - discriminate.
  - reflexivity.
Defined.

Lemma SearchPublications_by_format_witness :
  calls (serve (SearchPublications (asking "format" "lcpdf" (bare (B := unit))))
           pubStore1)
  = [CallFindByType "application/pdf+lcp"]
  /\ written (serve (SearchPublications (asking "format" "lcpdf" (bare (B := unit))))
                pubStore1)
     = [match fst (FindByType "application/pdf+lcp" pubStore1) with
        | Err _ => ErrNotFound
        | Ok publications => PublicationListResponse StatusOK publications
        end].
Proof.
  apply (proj1 (SearchPublications_by_format
                  (asking "format" "lcpdf" (bare (B := unit))) pubStore1)).
  right. left. reflexivity.
Defined.

Lemma HandlerCtx_stores_identified_witness :
  UUID pubPayload <> "" /\ Title pubPayload <> "".
Proof.
  apply (HandlerCtx_stores_identified (carrying (Some pubPayload) (bare (B := unit)))
           pubStore1 pubPayload).
  left. vm_compute. left. reflexivity.
Defined.

Lemma HandlerCtx_Update_pins_four_witness :
  exists q,
    calls (serve (HandlerCtx.UpdatePublication
                    (addressing "publicationID" "uuid-1"
                       (carrying (Some pubPayload) (bare (B := unit))))) pubStore1)
    = [CallGet "uuid-1"; CallUpdate q]
    /\ ID q = 7%N /\ CreatedAt q = 1000
    /\ UpdatedAt q = 2000 /\ DeletedAt q = None
    /\ UUID q = "uuid-1" /\ Title q = "Second" /\ Rest q = "application/pdf+lcp".
Proof.
  apply (HandlerCtx_Update_pins_four
           (addressing "publicationID" "uuid-1"
              (carrying (Some pubPayload) (bare (B := unit))))
           pubStore1 pubStore1 pubPayload pub1).
  - reflexivity.
  - discriminate.
  - vm_compute. reflexivity.
Defined.

Lemma APIHandler_Update_pins_two_witness :
  exists q,
    calls (serve (APIHandler.UpdatePublication
                    (addressing "publicationID" "uuid-1"
                       (carrying pubPayload (bare (B := unit))))) pubStore1)
    = [CallGet "uuid-1"; CallUpdate q]
    /\ ID q = 7%N /\ CreatedAt q = 1000
    /\ UpdatedAt q = 2 /\ DeletedAt q = Some 3
    /\ UUID q = "uuid-1" /\ Title q = "Second" /\ Rest q = "application/pdf+lcp".
Proof.
  apply (APIHandler_Update_pins_two
           (addressing "publicationID" "uuid-1"
              (carrying pubPayload (bare (B := unit))))
           pubStore1 pubStore1 pubPayload pub1).
  - reflexivity.
  - discriminate.
  - vm_compute. reflexivity.
Defined.

Lemma CreatePublication_outcome_witness :
  calls (serve (APIHandler.CreatePublication (carrying pubPayload (bare (B := unit))))
           (∅ : gmap string (PublicationInfo string)))
  = [CallCreate pubPayload]
  /\ (forall e, snd (fst (Create pubPayload (∅ : gmap string (PublicationInfo string))))
                = Some e ->
        written (serve (APIHandler.CreatePublication
                          (carrying pubPayload (bare (B := unit))))
                   (∅ : gmap string (PublicationInfo string)))
        = [ErrRender e])
  /\ (snd (fst (Create pubPayload (∅ : gmap string (PublicationInfo string)))) = None ->
        written (serve (APIHandler.CreatePublication
                          (carrying pubPayload (bare (B := unit))))
                   (∅ : gmap string (PublicationInfo string)))
        = [PublicationResponse StatusCreated
             (fst (fst (Create pubPayload (∅ : gmap string (PublicationInfo string)))))]).
Proof.
  apply (proj2 (CreatePublication_outcome
                  (carrying (Some pubPayload) (bare (B := unit)))
                  (carrying pubPayload (bare (B := unit)))
                  (∅ : gmap string (PublicationInfo string)) pubPayload)).
  reflexivity.
Defined.

Lemma GetPublication_answers_witness :
  calls (serve (APIHandler.GetPublication (bare (B := PublicationInfo string)))
           pubStore1) = []
  /\ written (serve (APIHandler.GetPublication (bare (B := PublicationInfo string)))
                pubStore1)
     = [ErrInvalidRequest (Errorf "missing required publication identifier")].
Proof.
  apply (proj2 (proj2 (proj2 (GetPublication_answers
                                (bare (B := option (PublicationInfo string)))
                                (bare (B := PublicationInfo string)) pubStore1)))).
  reflexivity.
Defined.

Lemma DeletePublication_outcome_witness :
  calls (serve (DeletePublication (addressing "publicationID" "uuid-1" (bare (B := unit))))
           pubStore1)
  = [CallGet "uuid-1"; CallDelete pub1].
Proof.
  apply (proj2 (proj2 (DeletePublication_outcome
                         (addressing "publicationID" "uuid-1" (bare (B := unit)))
                         pubStore1))
           ltac:(discriminate) pub1 pubStore1).
  vm_compute. reflexivity.
Defined.

End PublicationProperties.

(** * Concrete runs of the further license properties *)

Lemma SearchLicenses_answers_with_found_witness :
  written (serve (SearchLicenses (withQuery "status" "ready" emptyRequest)) store1)
  = [foundResponse (fst (FindByStatus "ready" store1))].
Proof.
  apply (proj1 (proj2 (proj2 (SearchLicenses_answers_with_found
                                (withQuery "status" "ready" emptyRequest) store1)))).
  - reflexivity.
  - reflexivity.
  - discriminate.
Defined.

Lemma SearchLicenses_count_needs_one_colon_witness :
  calls (serve (SearchLicenses (withQuery "count" "1:2:3" emptyRequest)) store1) = []
  /\ written (serve (SearchLicenses (withQuery "count" "1:2:3" emptyRequest)) store1)
     = [ErrInvalidRequest (Errorf "invalid count parameter: 1:2:3")].
Proof.
  apply (SearchLicenses_count_needs_one_colon
           (withQuery "count" "1:2:3" emptyRequest) store1).
  - reflexivity.
  - reflexivity.
  - reflexivity.
  - discriminate.
  - vm_compute. discriminate.
Defined.

Lemma SearchLicenses_effort_witness :
  exists a b,
    strings_Split "a:1" ":" = [a; b]
    /\ (snd (strconv_Atoi a) <> None \/ snd (strconv_Atoi b) <> None).
Proof.
  apply (proj2 (proj2 (SearchLicenses_effort
                         (withQuery "count" "a:1" emptyRequest) store1))).
  vm_compute. constructor.
Defined.

Lemma rejected_payload_never_reaches_store_witness :
  (calls (serve (CreateLicense memConfig emptyRequest) store1) = []
   /\ written (serve (CreateLicense memConfig emptyRequest) store1)
      = [ErrInvalidRequest (Foreign "EOF")])
  /\ (calls (serve (UpdateLicense emptyRequest) store1) = []
      /\ written (serve (UpdateLicense emptyRequest) store1)
         = [ErrInvalidRequest (Foreign "EOF")]).
Proof.
  apply (rejected_payload_never_reaches_store memConfig emptyRequest store1
           (Foreign "EOF")).
  reflexivity.
Defined.

Lemma CreateLicense_outcome_witness :
  exists l,
    calls (serve (CreateLicense memConfig createRequest) store1) = [CallCreate l]
    /\ (forall e, snd (fst (Create l store1)) = Some e ->
          written (serve (CreateLicense memConfig createRequest) store1) = [ErrRender e])
    /\ (snd (fst (Create l store1)) = None ->
          written (serve (CreateLicense memConfig createRequest) store1) =
          [LicenseInfoResponse StatusCreated (fst (fst (Create l store1)))]).
Proof.
  apply (CreateLicense_outcome memConfig createRequest store1 createPayload).
  reflexivity.
Defined.

Lemma CreateLicense_keeps_other_fields_witness :
  exists l,
    calls (serve (CreateLicense memConfig createRequest) store1) = [CallCreate l]
    /\ ID l = "L2" /\ CreatedAt l = 0 /\ UpdatedAt l = 0
    /\ PublicationID l = "pub-1" /\ UserID l = "bob"
    /\ Start l = None /\ End l = Some 100000
    /\ DeviceMax l = 1 /\ DeviceCount l = 0.
Proof.
  apply (CreateLicense_keeps_other_fields memConfig createRequest store1 createPayload).
  reflexivity.
Defined.

Lemma CreateLicense_End_has_MaxEnd_witness :
  MaxEnd (set_MaxEnd (Some 704800) (set_Status STATUS_READY createPayload)) <> None.
Proof.
  apply (CreateLicense_End_has_MaxEnd memConfig createRequest store1).
  - vm_compute. left. reflexivity.
  - discriminate.
Defined.

Lemma CreateLicense_zero_RenewMaxDays_witness :
  exists l,
    calls (serve (CreateLicense (MkConfig 0) createRequest) store1) = [CallCreate l]
    /\ End l = Some 100000 /\ MaxEnd l = Some 100000.
Proof.
  apply (CreateLicense_zero_RenewMaxDays (MkConfig 0) createRequest store1
           createPayload 100000).
  - reflexivity.
  - intros t. cbn. lia.
  - reflexivity.
  - reflexivity.
  - reflexivity.
Defined.

Lemma UpdateLicense_takes_payload_fields_witness :
  exists l,
    calls (serve (UpdateLicense updateRequest) store1) = [CallGet "L1"; CallUpdate l]
    /\ PublicationID l = "pub-1" /\ UserID l = "alice"
    /\ Start l = None /\ End l = Some 90000 /\ MaxEnd l = Some 200000
    /\ DeviceMax l = 2 /\ DeviceCount l = 0.
Proof.
  apply (UpdateLicense_takes_payload_fields updateRequest store1 store1
           updatePayload lic1).
  - reflexivity.
  - discriminate.
  - vm_compute. reflexivity.
Defined.

Lemma UpdateLicense_outcome_witness :
  exists l,
    calls (serve (UpdateLicense updateRequest) store1) = [CallGet "L1"; CallUpdate l]
    /\ (forall e, snd (fst (Update l store1)) = Some e ->
          written (serve (UpdateLicense updateRequest) store1) = [ErrRender e])
    /\ (snd (fst (Update l store1)) = None ->
          written (serve (UpdateLicense updateRequest) store1) =
          [LicenseInfoResponse StatusOK (fst (fst (Update l store1)))]).
Proof.
  apply (UpdateLicense_outcome updateRequest store1 store1 updatePayload lic1).
  - reflexivity.
  - discriminate.
  - vm_compute. reflexivity.
Defined.

Lemma missing_license_identifier_witness :
  (calls (serve (GetLicense createRequest) store1) = []
   /\ written (serve (GetLicense createRequest) store1) =
      [ErrInvalidRequest (Errorf "missing required license identifier")])
  /\ (calls (serve (DeleteLicense createRequest) store1) = []
      /\ written (serve (DeleteLicense createRequest) store1) = [ErrNotFound])
  /\ (forall payload, render_Bind createRequest = Ok payload ->
      calls (serve (UpdateLicense createRequest) store1) = []
      /\ written (serve (UpdateLicense createRequest) store1) = [ErrNotFound]).
Proof.
  apply (missing_license_identifier createRequest store1).
  reflexivity.
Defined.

Lemma GetLicense_returns_stored_witness :
  calls (serve (GetLicense (withParam "licenseID" "L1" emptyRequest)) store1)
  = [CallGet "L1"]
  /\ written (serve (GetLicense (withParam "licenseID" "L1" emptyRequest)) store1)
     = [LicenseInfoResponse StatusOK lic1].
Proof.
  apply (GetLicense_returns_stored (withParam "licenseID" "L1" emptyRequest)
           store1 store1 lic1).
  - discriminate.
  - vm_compute. reflexivity.
Defined.

Lemma DeleteLicense_outcome_witness :
  calls (serve (DeleteLicense (withParam "licenseID" "L1" emptyRequest)) store1)
  = [CallGet "L1"; CallDelete lic1]
  /\ (forall e, snd (fst (Delete lic1 store1)) = Some e ->
        written (serve (DeleteLicense (withParam "licenseID" "L1" emptyRequest)) store1)
        = [ErrInvalidRequest e])
  /\ (snd (fst (Delete lic1 store1)) = None ->
        written (serve (DeleteLicense (withParam "licenseID" "L1" emptyRequest)) store1)
        = [LicenseInfoResponse StatusOK (fst (fst (Delete lic1 store1)))]).
Proof.
  apply (DeleteLicense_outcome (withParam "licenseID" "L1" emptyRequest)
           store1 store1 lic1).
  - discriminate.
  - vm_compute. reflexivity.
Defined.

(** * The update instant *)

Section UpdateInstant.
Context `{Platform}.


End UpdateInstant.

